(** * The giscus web component: session, term, address and message handling

    A shallow embedding of [web/src/giscus.ts] (the [GiscusWidget] custom
    element) together with the small part of the browser it talks to:
    strings, the values a [MessageEvent] can carry, [URL] and
    [URLSearchParams], [JSON], [localStorage], [console] and the rendered
    iframe. The methods of the class are state transformers over a record
    that holds the element and its page; a method ends normally, by a
    [return] statement or by a [TypeError].

    Strings are [String.string], read as the UTF-8 bytes of the JavaScript
    string; every string the widget measures or scans ([location.pathname],
    the error text) is ASCII in practice, where bytes and UTF-16 code units
    coincide. Numbers are abstract: the development is parametric in their
    three operations, and in [JSON.parse].

    The definitions come first; the results on [getTerm], [getIframeSrc],
    [setupSession], [requestUpdate] and [handleMessageEvent] follow, and
    the file ends with their instances on concrete pages. *)

From Stdlib Require Import ZArith Ascii String List Bool Lia DecimalString.
From stdpp Require Import base option list strings gmap.

Import ListNotations.
Local Open Scope string_scope.
Local Open Scope list_scope.
Set Warnings "-register-all".

(** ** JavaScript strings *)

Module JSString.

(** [s.substring(1)]. *)
Definition substring1 (s : string) : string :=
  match s with
  | EmptyString => EmptyString
  | String _ rest => rest
  end.

(** [s.startsWith(p)]. *)
Fixpoint startsWith (p s : string) : bool :=
  match p, s with
  | EmptyString, _ => true
  | String _ _, EmptyString => false
  | String a p', String b s' => Ascii.eqb a b && startsWith p' s'
  end.

(** [s.includes(sub)]: some suffix of [s] starts with [sub]. *)
Fixpoint includes (s sub : string) : bool :=
  startsWith sub s ||
  match s with
  | EmptyString => false
  | String _ s' => includes s' sub
  end.

Definition in_range (lo hi : nat) (c : ascii) : bool :=
  (lo <=? nat_of_ascii c)%nat && (nat_of_ascii c <=? hi)%nat.

Definition is_digit (c : ascii) : bool := in_range 48 57 c.
Definition is_upper (c : ascii) : bool := in_range 65 90 c.
Definition is_lower (c : ascii) : bool := in_range 97 122 c.

(** The regular-expression class [\w] (no [u] or [i] flag):
    [[A-Za-z0-9_]]. *)
Definition is_word (c : ascii) : bool :=
  is_digit c || is_upper c || is_lower c || Ascii.eqb c "_".

Fixpoint all_word (s : string) : bool :=
  match s with
  | EmptyString => true
  | String c s' => is_word c && all_word s'
  end.

(** Does [/\.\w+$/] match with the match starting at the head of [s]?
    The head is a dot and what follows, up to the end of the string, is
    one or more word characters. *)
Definition ext_at_head (s : string) : bool :=
  match s with
  | String "." (String c rest) => is_word c && all_word rest
  | _ => false
  end.

(** [s.replace(/\.\w+$/, '')]: the engine tries each start position from
    the left; at the first one where the pattern matches, the match (which
    runs to the end of the string) is replaced by the empty string. Without
    a match the string is returned as it is. *)
Fixpoint replace_ext (s : string) : string :=
  if ext_at_head s then EmptyString
  else match s with
       | EmptyString => EmptyString
       | String c s' => String c (replace_ext s')
       end.

(** [parts.join(sep)]. *)
Fixpoint join (sep : string) (parts : list string) : string :=
  match parts with
  | [] => EmptyString
  | [p] => p
  | p :: rest => p +:+ sep +:+ join sep rest
  end.

(** How many times the character [c] occurs in [s]. *)
Fixpoint count (c : ascii) (s : string) : nat :=
  match s with
  | EmptyString => 0
  | String d s' => (if Ascii.eqb c d then 1 else 0) + count c s'
  end.

(** A string is truthy when it is not empty. *)
Definition nonempty (s : string) : bool :=
  match s with
  | EmptyString => false
  | String _ _ => true
  end.

End JSString.

(** ** JavaScript values

  The values that reach the widget from outside: the payload of a
  [MessageEvent] (delivered by structured clone) and the result of
  [JSON.parse]. Numbers are IEEE doubles in the engine; the widget only
  ever tests them for truthiness, prints them and obtains them from
  strings, so they are kept abstract behind these three operations. *)

Class NumberOps (Num : Type) := {
(** [ToBoolean]: false on [+0], [-0] and [NaN]. *)
num_truthy : Num -> bool;
(** [Number.prototype.toString] in radix 10. *)
num_to_string : Num -> string;
(** [StringToNumber], as applied by unary [+] and by number literals. *)
num_of_string : string -> Num
}.

Inductive JSValue (Num : Type) : Type :=
| JUndefined
| JNull
| JBool (b : bool)
| JNumber (n : Num)
| JString (s : string)
| JArray (items : list (JSValue Num))
| JObject (fields : list (string * JSValue Num)).

Arguments JUndefined {Num}.
Arguments JNull {Num}.
Arguments JBool {Num} b.
Arguments JNumber {Num} n.
Arguments JString {Num} s.
Arguments JArray {Num} items.
Arguments JObject {Num} fields.

Module JS.
Section Values.
Context {Num : Type} `{NumberOps Num}.

(** [ToBoolean(v)]. *)
Definition truthy (v : JSValue Num) : bool :=
  match v with
  | JUndefined | JNull => false
  | JBool b => b
  | JNumber n => num_truthy n
  | JString s => JSString.nonempty s
  | JArray _ | JObject _ => true
  end.

(** [typeof v === 'object']: objects, arrays and, famously, [null]. *)
Definition typeof_object (v : JSValue Num) : bool :=
  match v with
  | JNull | JArray _ | JObject _ => true
  | _ => false
  end.

Fixpoint lookup_field (k : string) (fields : list (string * JSValue Num))
  : JSValue Num :=
  match fields with
  | [] => JUndefined
  | (k', v) :: rest => if String.eqb k k' then v else lookup_field k rest
  end.

(** [v.k] for a key [k] that no prototype defines (such as [giscus],
    [resizeHeight], [error]): [None] is the [TypeError] of reading a
    property of [undefined] or [null]. *)
Definition get (v : JSValue Num) (k : string) : option (JSValue Num) :=
  match v with
  | JUndefined | JNull => None
  | JObject fields => Some (lookup_field k fields)
  | _ => Some JUndefined
  end.

Fixpoint has_field (k : string) (fields : list (string * JSValue Num))
  : bool :=
  match fields with
  | [] => false
  | (k', _) :: rest => String.eqb k k' || has_field k rest
  end.

(** [ToString(v)], the conversion done by a template literal and by
    [URLSearchParams]; [None] is a [TypeError]. A plain object prints
    through [Object.prototype.toString]; when it carries a [toString]
    field of its own (data, never a function) no conversion is left and
    the engine throws. An array prints through [join], where the
    elements [undefined] and [null] give the empty string. *)
Fixpoint ToString (v : JSValue Num) : option string :=
  match v with
  | JUndefined => Some "undefined"
  | JNull => Some "null"
  | JBool true => Some "true"
  | JBool false => Some "false"
  | JNumber n => Some (num_to_string n)
  | JString s => Some s
  | JArray items =>
      let fix each (l : list (JSValue Num)) : option (list string) :=
        match l with
        | [] => Some []
        | x :: rest =>
            match (match x with
                   | JUndefined | JNull => Some EmptyString
                   | _ => ToString x
                   end), each rest with
            | Some a, Some b => Some (a :: b)
            | _, _ => None
            end
        end in
      match each items with
      | Some parts => Some (JSString.join "," parts)
      | None => None
      end
  | JObject fields =>
      if has_field "toString" fields then None else Some "[object Object]"
  end.

(** Is [v] the string [s]?  ([v === s] for a string [s].) *)
Definition is_string (s : string) (v : JSValue Num) : bool :=
  match v with
  | JString s' => String.eqb s' s
  | _ => false
  end.

(** [v.includes(sub)] for a string [sub]: [String.prototype.includes] on
    a string, [Array.prototype.includes] on an array, and the [TypeError]
    of calling something that is not a function ([None]) on anything
    else, since cloned data carries no functions. *)
Definition includes (v : JSValue Num) (sub : string) : option bool :=
  match v with
  | JString s => Some (JSString.includes s sub)
  | JArray items => Some (existsb (is_string sub) items)
  | _ => None
  end.

End Values.
End JS.

(** ** URLs and query strings *)

Module Url.

Definition hex_digit (n : nat) : ascii :=
  ascii_of_nat (if (n <? 10)%nat then 48 + n else 55 + n).

(** The bytes the [application/x-www-form-urlencoded] serializer leaves
    alone: ASCII letters and digits and the four characters [*-._]. *)
Definition form_safe (c : ascii) : bool :=
  JSString.is_digit c || JSString.is_upper c || JSString.is_lower c ||
  Ascii.eqb c "*" || Ascii.eqb c "-" || Ascii.eqb c "." || Ascii.eqb c "_".

(** One byte, serialized: a space becomes [+], a safe byte stays, every
    other byte becomes [%] and two upper-case hexadecimal digits. *)
Definition encode_byte (c : ascii) : string :=
  if Ascii.eqb c " " then "+"
  else if form_safe c then String c EmptyString
  else
    let n := nat_of_ascii c in
    String "%" (String (hex_digit (n / 16))
                  (String (hex_digit (n mod 16)) EmptyString)).

Fixpoint encode (s : string) : string :=
  match s with
  | EmptyString => EmptyString
  | String c s' => encode_byte c +:+ encode s'
  end.

(** The value of a hexadecimal digit. *)
Definition unhex (c : ascii) : option nat :=
  let n := nat_of_ascii c in
  if JSString.is_digit c then Some (n - 48)
  else if JSString.in_range 65 70 c then Some (n - 55)
  else if JSString.in_range 97 102 c then Some (n - 87)
  else None.

(** The decoding on the other side, what the parser of
    [application/x-www-form-urlencoded] does to a name or a value: [+] is
    a space, [%] and two hexadecimal digits are the byte they denote, and
    every other byte stands for itself. *)
Fixpoint decode (s : string) : string :=
  match s with
  | EmptyString => EmptyString
  | String c rest =>
      if Ascii.eqb c "+" then String " " (decode rest)
      else if Ascii.eqb c "%" then
        match rest with
        | String h (String l rest') =>
            match unhex h, unhex l with
            | Some a, Some b =>
                String (ascii_of_nat (16 * a + b)) (decode rest')
            | _, _ => String c (decode rest)
            end
        | _ => String c (decode rest)
        end
      else String c (decode rest)
  end.

(** The serializer of [URLSearchParams]: [name=value] pairs joined with
    [&], in list order. *)
Definition serialize (params : list (string * string)) : string :=
  JSString.join "&"
    (map (fun kv => encode (fst kv) +:+ "=" +:+ encode (snd kv)) params).

(** A parsed hierarchical URL, as [new URL(location.href)] exposes it:
    [protocol] ends with a colon, [host] carries the port if there is
    one, [pathname] and [hash] are kept as written, and [searchParams] is
    the decoded list of name and value pairs of the query. *)
Record URL := {
  protocol : string;
  host : string;
  pathname : string;
  searchParams : list (string * string);
  hash : string
}.

(** [url.searchParams.get(name)]: the value of the first pair with that
    name, [null] ([None]) without one. *)
Fixpoint get (name : string) (params : list (string * string))
  : option string :=
  match params with
  | [] => None
  | (k, v) :: rest => if String.eqb k name then Some v else get name rest
  end.

(** [url.searchParams.delete(name)]: every pair with that name goes. *)
Definition delete (name : string) (u : URL) : URL :=
  {| protocol := protocol u;
     host := host u;
     pathname := pathname u;
     searchParams :=
       List.filter (fun kv => negb (String.eqb (fst kv) name))
                   (searchParams u);
     hash := hash u |}.

(** [url.toString()] once [searchParams] has been written to: the query
    is the serialized list, and it disappears with its [?] when that
    serialization is empty. *)
Definition toString (u : URL) : string :=
  let q := serialize (searchParams u) in
  protocol u +:+ "//" +:+ host u +:+ pathname u +:+
  (if JSString.nonempty q then "?" +:+ q else EmptyString) +:+ hash u.

(** The serialized origin, what the global [origin] ([window.origin])
    holds: scheme and host for the schemes with a tuple origin, the
    string [null] for the others. *)
Definition origin (u : URL) : string :=
  if existsb (String.eqb (protocol u))
             ["http:"; "https:"; "ftp:"; "ws:"; "wss:"]
  then protocol u +:+ "//" +:+ host u
  else "null".

End Url.

(** ** JSON *)

Module Json.

Definition hex_lower (n : nat) : ascii :=
  ascii_of_nat (if (n <? 10)%nat then 48 + n else 87 + n).

(** One character of [QuoteJSONString]. *)
Definition quote_char (c : ascii) : string :=
  let n := nat_of_ascii c in
  if (n =? 8)%nat then "\b"
  else if (n =? 9)%nat then "\t"
  else if (n =? 10)%nat then "\n"
  else if (n =? 12)%nat then "\f"
  else if (n =? 13)%nat then "\r"
  else if (n =? 34)%nat then String "\" (String c EmptyString)
  else if (n =? 92)%nat then "\\"
  else if (n <? 32)%nat then
    "\u00" +:+ String (hex_lower (n / 16))
                 (String (hex_lower (n mod 16)) EmptyString)
  else String c EmptyString.

Fixpoint quote_chars (s : string) : string :=
  match s with
  | EmptyString => EmptyString
  | String c s' => quote_char c +:+ quote_chars s'
  end.

(** [JSON.stringify(s)] for a string [s]. *)
Definition stringify (s : string) : string :=
  String (ascii_of_nat 34) (quote_chars s) +:+
  String (ascii_of_nat 34) EmptyString.

(** *** A reference parser

    [JSON.parse] belongs to the engine; the widget is verified for any
    parser. This one follows the JSON grammar and serves to run the widget
    on concrete stored values. Escapes [\uXXXX] are decoded to UTF-8, a
    surrogate pair to one code point, a lone surrogate to U+FFFD. *)

Definition is_ws (c : ascii) : bool :=
  let n := nat_of_ascii c in
  (n =? 32)%nat || (n =? 9)%nat || (n =? 10)%nat || (n =? 13)%nat.

Fixpoint skip_ws (s : string) : string :=
  match s with
  | String c rest => if is_ws c then skip_ws rest else s
  | EmptyString => s
  end.

Definition hex_value (c : ascii) : option N :=
  let n := N_of_ascii c in
  if JSString.is_digit c then Some (n - 48)%N
  else if JSString.in_range 65 70 c then Some (n - 55)%N
  else if JSString.in_range 97 102 c then Some (n - 87)%N
  else None.

Definition hex4 (a b c d : ascii) : option N :=
  match hex_value a, hex_value b, hex_value c, hex_value d with
  | Some x, Some y, Some z, Some w =>
      Some (((x * 16 + y) * 16 + z) * 16 + w)%N
  | _, _, _, _ => None
  end.

Definition byte (n : N) : string := String (ascii_of_N n) EmptyString.

(** The UTF-8 bytes of a code point. *)
Definition utf8 (cp : N) : string :=
  if (cp <? 128)%N then byte cp
  else if (cp <? 2048)%N then
    byte (192 + cp / 64) +:+ byte (128 + cp mod 64)
  else if (cp <? 65536)%N then
    byte (224 + cp / 4096) +:+ byte (128 + (cp / 64) mod 64) +:+
    byte (128 + cp mod 64)
  else
    byte (240 + cp / 262144) +:+ byte (128 + (cp / 4096) mod 64) +:+
    byte (128 + (cp / 64) mod 64) +:+ byte (128 + cp mod 64).

Definition is_high_surrogate (u : N) : bool :=
  (55296 <=? u)%N && (u <=? 56319)%N.
Definition is_low_surrogate (u : N) : bool :=
  (56320 <=? u)%N && (u <=? 57343)%N.

(** The characters of a string literal after its opening quote: the
    decoded text and what follows the closing quote. *)
Fixpoint string_body (s : string) : option (string * string) :=
  match s with
  | EmptyString => None
  | String c rest =>
      if (nat_of_ascii c =? 34)%nat then Some (EmptyString, rest)
      else if (nat_of_ascii c <? 32)%nat then None
      else if (nat_of_ascii c =? 92)%nat then
        match rest with
        | String "u" (String a (String b (String x (String y rest')))) =>
            match hex4 a b x y with
            | None => None
            | Some u =>
                let lone :=
                  match string_body rest' with
                  | Some (text, after) =>
                      Some (utf8 (if is_high_surrogate u || is_low_surrogate u
                                  then 65533%N else u) +:+ text, after)
                  | None => None
                  end in
                if is_high_surrogate u then
                  match rest' with
                  | String e (String "u" (String a' (String b'
                      (String x' (String y' rest''))))) =>
                      match hex4 a' b' x' y' with
                      | Some l =>
                          if (nat_of_ascii e =? 92)%nat && is_low_surrogate l
                          then
                            match string_body rest'' with
                            | Some (text, after) =>
                                Some (utf8 (65536 + (u - 55296) * 1024
                                            + (l - 56320))%N +:+ text, after)
                            | None => None
                            end
                          else lone
                      | None => lone
                      end
                  | _ => lone
                  end
                else lone
            end
        | String e rest' =>
            let simple (n : N) :=
              match string_body rest' with
              | Some (text, after) => Some (byte n +:+ text, after)
              | None => None
              end in
            let n := nat_of_ascii e in
            if (n =? 34)%nat then simple 34%N
            else if (n =? 92)%nat then simple 92%N
            else if (n =? 47)%nat then simple 47%N
            else if Ascii.eqb e "b" then simple 8%N
            else if Ascii.eqb e "f" then simple 12%N
            else if Ascii.eqb e "n" then simple 10%N
            else if Ascii.eqb e "r" then simple 13%N
            else if Ascii.eqb e "t" then simple 9%N
            else None
        | EmptyString => None
        end
      else
        match string_body rest with
        | Some (text, after) => Some (String c text, after)
        | None => None
        end
  end.

(** [s] with the leading keyword [k] taken off. *)
Fixpoint keyword (k s : string) : option string :=
  match k, s with
  | EmptyString, _ => Some s
  | String _ _, EmptyString => None
  | String a k', String b s' => if Ascii.eqb a b then keyword k' s' else None
  end.

Fixpoint digits (s : string) : string * string :=
  match s with
  | String c rest =>
      if JSString.is_digit c then
        let '(ds, after) := digits rest in (String c ds, after)
      else (EmptyString, s)
  | EmptyString => (EmptyString, s)
  end.

(** A number literal at the head of [s]: the literal and the rest. An
    optional minus sign, then a single zero or digits that do not start
    with zero, then optionally a dot with digits, then optionally an
    exponent: e or E, an optional sign, digits. *)
Definition number_literal (s : string) : option (string * string) :=
  let '(sign, s1) :=
    match s with
    | String "-" r => ("-", r)
    | _ => (EmptyString, s)
    end in
  let '(int, s2) := digits s1 in
  let int_ok :=
    match int with
    | EmptyString => false
    | String "0" (String _ _) => false
    | _ => true
    end in
  if negb int_ok then None else
  let frac :=
    match s2 with
    | String "." r =>
        let '(ds, after) := digits r in
        if JSString.nonempty ds then Some ("." +:+ ds, after) else None
    | _ => Some (EmptyString, s2)
    end in
  match frac with
  | None => None
  | Some (fr, s3) =>
      let exp :=
        match s3 with
        | String e r =>
            if Ascii.eqb e "e" || Ascii.eqb e "E" then
              let '(sg, r') :=
                match r with
                | String "+" r' => ("+", r')
                | String "-" r' => ("-", r')
                | _ => (EmptyString, r)
                end in
              let '(ds, after) := digits r' in
              if JSString.nonempty ds
              then Some (String e sg +:+ ds, after) else None
            else Some (EmptyString, s3)
        | EmptyString => Some (EmptyString, s3)
        end in
      match exp with
      | None => None
      | Some (ex, s4) => Some (sign +:+ int +:+ fr +:+ ex, s4)
      end
  end.

Section Parser.
Context {Num : Type} `{NumberOps Num}.

(** [obj[k] = v]: a repeated key keeps its place and takes the new
    value. *)
Fixpoint obj_set (k : string) (v : JSValue Num)
  (fields : list (string * JSValue Num)) : list (string * JSValue Num) :=
  match fields with
  | [] => [(k, v)]
  | (k', v') :: rest =>
      if String.eqb k k' then (k, v) :: rest
      else (k', v') :: obj_set k v rest
  end.

(** [value] reads one value after optional white space; [elements] reads
    values separated by commas up to the closing bracket and [members]
    reads key and value pairs separated by commas up to the closing brace.
    The fuel bounds the depth of the calls; two nested calls read at least
    one character between them. *)
Fixpoint value (fuel : nat) (s : string) : option (JSValue Num * string) :=
  match fuel with
  | O => None
  | S fuel' =>
      match skip_ws s with
      | String "{" rest =>
          match skip_ws rest with
          | String "}" after => Some (JObject [], after)
          | inner =>
              match members fuel' inner with
              | Some (fields, after) =>
                  Some (JObject (fold_left (fun acc kv =>
                                   obj_set (fst kv) (snd kv) acc) fields []),
                        after)
              | None => None
              end
          end
      | String "[" rest =>
          match skip_ws rest with
          | String "]" after => Some (JArray [], after)
          | inner =>
              match elements fuel' inner with
              | Some (items, after) => Some (JArray items, after)
              | None => None
              end
          end
      | String c rest as t =>
          if (nat_of_ascii c =? 34)%nat then
            match string_body rest with
            | Some (text, after) => Some (JString text, after)
            | None => None
            end
          else
            match keyword "true" t, keyword "false" t, keyword "null" t with
            | Some after, _, _ => Some (JBool true, after)
            | _, Some after, _ => Some (JBool false, after)
            | _, _, Some after => Some (JNull, after)
            | None, None, None =>
                match number_literal t with
                | Some (literal, after) =>
                    Some (JNumber (num_of_string literal), after)
                | None => None
                end
            end
      | EmptyString => None
      end
  end
with elements (fuel : nat) (s : string)
  : option (list (JSValue Num) * string) :=
  match fuel with
  | O => None
  | S fuel' =>
      match value fuel' s with
      | Some (v, rest) =>
          match skip_ws rest with
          | String "," more =>
              match elements fuel' more with
              | Some (vs, after) => Some (v :: vs, after)
              | None => None
              end
          | String "]" after => Some ([v], after)
          | _ => None
          end
      | None => None
      end
  end
with members (fuel : nat) (s : string)
  : option (list (string * JSValue Num) * string) :=
  match fuel with
  | O => None
  | S fuel' =>
      match skip_ws s with
      | String q rest =>
          if negb (nat_of_ascii q =? 34)%nat then None else
          match string_body rest with
          | Some (k, rest1) =>
              match skip_ws rest1 with
              | String ":" rest2 =>
                  match value fuel' rest2 with
                  | Some (v, rest3) =>
                      match skip_ws rest3 with
                      | String "," more =>
                          match members fuel' more with
                          | Some (kvs, after) => Some ((k, v) :: kvs, after)
                          | None => None
                          end
                      | String "}" after => Some ([(k, v)], after)
                      | _ => None
                      end
                  | None => None
                  end
              | _ => None
              end
          | None => None
          end
      | EmptyString => None
      end
  end.

(** [JSON.parse(text)]: one value, white space around it, nothing else. *)
Definition parse (text : string) : JSValue Num + string :=
  match value (2 * String.length text + 2) text with
  | Some (v, rest) =>
      match skip_ws rest with
      | EmptyString => inl v
      | _ => inr "Unexpected non-whitespace character after JSON"
      end
  | None => inr "Unexpected token in JSON"
  end.

End Parser.

End Json.

(** ** The widget *)

Module Giscus.

Definition GISCUS_SESSION_KEY : string := "giscus-session".
Definition GISCUS_ORIGIN : string := "https://giscus.app".
Definition ERROR_SUGGESTION : string :=
  "Please consider reporting this error at https://github.com/giscus/giscus/issues/new.".

(** The reactive properties of the element, typed as the class declares
    them: [repo] is mandatory, the fields declared with [?] may be
    [undefined], the others start from their defaults. At run time each
    of them is an arbitrary string, [mapping] and [lang] included. *)
Record Props := {
  repo : string;
  repoId : option string;
  category : option string;
  categoryId : option string;
  mapping : option string;
  term : option string;
  reactionsEnabled : string;
  emitMetadata : string;
  inputPosition : string;
  theme : string;
  lang : string;
  loading : string
}.

(** A [<meta>] element of the page: its [property] and [name] attributes
    and its [content] (empty without the attribute). *)
Record Meta := {
  meta_property : option string;
  meta_name : option string;
  content : string
}.

Record Document := {
  title : string;
  metas : list Meta
}.

Inductive Level := Warn | Error.

Section Widget.
Context {Num : Type} `{NumberOps Num}.

(** The payload of an outbound [setConfig] message. *)
Record SetConfig := {
  sc_repo : string;
  sc_repoId : option string;
  sc_category : option string;
  sc_categoryId : option string;
  sc_term : string;
  sc_number : Num;
  sc_reactionsEnabled : bool;
  sc_emitMetadata : bool;
  sc_inputPosition : string;
  sc_theme : string;
  sc_lang : string
}.

(** [ISetConfigMessage]. *)
Record ISetConfigMessage := {
  setConfig : SetConfig
}.

(** One [postMessage] call on the frame's window: the envelope
    [{ giscus: message }] and the target origin. *)
Record Posted := {
  giscus : ISetConfigMessage;
  targetOrigin : string
}.

(** The rendered [<iframe>]: the two attributes the template binds, the
    last value assigned to [style.height], and its window with the
    messages posted to it so far ([None]: no window). *)
Record Iframe := {
  src : string;
  loading_attr : string;
  style_height : string;
  contentWindow : option (list Posted)
}.

(** An inbound [MessageEvent]. *)
Record MessageEvent := {
  origin : string;
  data : JSValue Num
}.

(** The element together with the page it lives in. [renderRoot] tells
    whether the element has a render root, which [LitElement] creates
    when the element is connected for the first time. *)
Record State := {
  props : Props;
  id : string;
  __session : JSValue Num;
  hasUpdated : bool;
  isUpdatePending : bool;
  iframeRef : option Iframe;
  location : Url.URL;
  document : Document;
  localStorage : gmap string string;
  console : list (Level * string);
  renderRoot : bool
}.

(** [JSON.parse]: the parsed value, or the message of the [SyntaxError]
    it throws. The widget is verified against any parser. *)
Variable JSON_parse : string -> JSValue Num + string.

(** *** Field updates *)

Definition set_session (v : JSValue Num) (st : State) : State :=
  Build_State (props st) (id st) v (hasUpdated st) (isUpdatePending st)
    (iframeRef st) (location st) (document st) (localStorage st)
    (console st) (renderRoot st).

Definition set_isUpdatePending (b : bool) (st : State) : State :=
  Build_State (props st) (id st) (__session st) (hasUpdated st) b
    (iframeRef st) (location st) (document st) (localStorage st)
    (console st) (renderRoot st).

Definition set_iframeRef (f : option Iframe) (st : State) : State :=
  Build_State (props st) (id st) (__session st) (hasUpdated st)
    (isUpdatePending st) f (location st) (document st) (localStorage st)
    (console st) (renderRoot st).

Definition set_location (u : Url.URL) (st : State) : State :=
  Build_State (props st) (id st) (__session st) (hasUpdated st)
    (isUpdatePending st) (iframeRef st) u (document st) (localStorage st)
    (console st) (renderRoot st).

Definition set_localStorage (m : gmap string string) (st : State) : State :=
  Build_State (props st) (id st) (__session st) (hasUpdated st)
    (isUpdatePending st) (iframeRef st) (location st) (document st) m
    (console st) (renderRoot st).

Definition set_console (l : list (Level * string)) (st : State) : State :=
  Build_State (props st) (id st) (__session st) (hasUpdated st)
    (isUpdatePending st) (iframeRef st) (location st) (document st)
    (localStorage st) l (renderRoot st).

(** *** Statements: state, [return] and exceptions

    A method body is a state transformer that either runs to its end
    with a value, leaves through a [return] statement, or throws. *)

Inductive Completion (A : Type) : Type :=
| Normal (a : A) (st : State)
| Returned (st : State)
| Thrown (st : State).

Arguments Normal {A}.
Arguments Returned {A}.
Arguments Thrown {A}.

Definition M (A : Type) : Type := State -> Completion A.

Definition pure {A} (a : A) : M A := fun st => Normal a st.

Definition bind {A B} (m : M A) (k : A -> M B) : M B :=
  fun st =>
    match m st with
    | Normal a st' => k a st'
    | Returned st' => Returned st'
    | Thrown st' => Thrown st'
    end.

Definition return_ {A} : M A := fun st => Returned st.
Definition throw {A} : M A := fun st => Thrown st.
Definition modify (f : State -> State) : M unit :=
  fun st => Normal tt (f st).
Definition gets {A} (f : State -> A) : M A := fun st => Normal (f st) st.

(** A conversion or property read that may raise a [TypeError]. *)
Definition try_ {A} (o : option A) : M A :=
  match o with
  | Some a => pure a
  | None => throw
  end.

(** The state a call leaves behind, however it ended. *)
Definition final {A} (c : Completion A) : State :=
  match c with
  | Normal _ st | Returned st | Thrown st => st
  end.

Definition threw {A} (c : Completion A) : bool :=
  match c with
  | Thrown _ => true
  | _ => false
  end.

Notation "x <- m ;; k" := (bind m (fun x => k))
  (at level 100, m at next level, right associativity).
Notation "m ;; k" := (bind m (fun _ => k))
  (at level 100, right associativity).

(** [if (c) return;] *)
Definition return_if (c : bool) : M unit :=
  if c then return_ else pure tt.

(** *** The browser objects the widget calls

    The page is one that may use its store and its history: reading,
    writing and removing a key and replacing the address succeed. What a
    browser throws when storage is blocked or full is outside of this
    model, and so is every statement about it. *)

Definition localStorage_getItem (k : string) : M (option string) :=
  gets (fun st => localStorage st !! k).

Definition localStorage_setItem (k v : string) : M unit :=
  modify (fun st => set_localStorage (<[k := v]> (localStorage st)) st).

Definition localStorage_removeItem (k : string) : M unit :=
  modify (fun st => set_localStorage (delete k (localStorage st)) st).

Definition console_warn (text : string) : M unit :=
  modify (fun st => set_console (console st ++ [(Warn, text)]) st).

Definition console_error (text : string) : M unit :=
  modify (fun st => set_console (console st ++ [(Error, text)]) st).

(** [history.replaceState(undefined, document.title, url.toString())]:
    the address of the page becomes [url], without navigation. *)
Definition history_replaceState (url : Url.URL) : M unit :=
  modify (set_location url).

(** [a || ''] for an optional string [a]. *)
Definition or_empty (a : option string) : string :=
  match a with
  | Some s => s
  | None => EmptyString
  end.

(** Truthiness of an optional string: present and not empty. *)
Definition truthy_opt (a : option string) : bool :=
  match a with
  | Some s => JSString.nonempty s
  | None => false
  end.

(** *** The methods of [GiscusWidget] *)

(** [`[giscus] An error occurred. Error message: "${message}".`] *)
Definition _formatError (message : JSValue Num) : option string :=
  match JS.ToString message with
  | Some text =>
      Some ("[giscus] An error occurred. Error message: " +:+
            String (ascii_of_nat 34) text +:+
            String (ascii_of_nat 34) ".")
  | None => None
  end.

Definition setupSession : M unit :=
  url <- gets location ;;
  savedSession <- localStorage_getItem GISCUS_SESSION_KEY ;;
  let urlSession := or_empty (Url.get "giscus" (Url.searchParams url)) in
  (if JSString.nonempty urlSession then
     localStorage_setItem GISCUS_SESSION_KEY (Json.stringify urlSession) ;;
     modify (set_session (JString urlSession)) ;;
     let url := Url.delete "giscus" url in
     history_replaceState url ;;
     return_
   else pure tt) ;;
  if truthy_opt savedSession then
    match JSON_parse (or_empty savedSession) with
    | inl v =>
        modify (set_session (if JS.truthy v then v else JString ""))
    | inr e_message =>
        modify (set_session (JString "")) ;;
        localStorage_removeItem GISCUS_SESSION_KEY ;;
        text <- try_ (_formatError (JString e_message)) ;;
        console_warn (text +:+ " Session has been cleared.")
    end
  else pure tt.

(** [document.querySelector] on the selector
    [meta[property='og:${property}'],meta[name='${property}']]
    and the [content] of the element found, the empty string without one:
    the first [<meta>] in document order that matches either selector. *)
Definition _getOgMetaContent (property : string) (st : State) : string :=
  match List.find
          (fun m =>
             match meta_property m with
             | Some p => String.eqb p ("og:" +:+ property)
             | None => false
             end ||
             match meta_name m with
             | Some n => String.eqb n property
             | None => false
             end)
          (metas (document st)) with
  | Some element => content element
  | None => EmptyString
  end.

(** [getTerm]. The identifier [origin] in the [url] case is not bound in
    the method nor in the module: it is the global [window.origin], the
    serialized origin of the page. *)
Definition getTerm (st : State) : string :=
  let pathname_case :=
    if (String.length (Url.pathname (location st)) <? 2)%nat then "index"
    else JSString.replace_ext
           (JSString.substring1 (Url.pathname (location st))) in
  match mapping (props st) with
  | Some m =>
      if String.eqb m "url" then Url.origin (location st)
      else if String.eqb m "title" then title (document st)
      else if String.eqb m "og:title" then _getOgMetaContent "title" st
      else if String.eqb m "specific" then or_empty (term (props st))
      else if String.eqb m "number" then EmptyString
      else pathname_case
  | None => pathname_case
  end.

(** [(this.mapping === 'number' && this.term) || '']. *)
Definition getNumber (st : State) : string :=
  match mapping (props st) with
  | Some m =>
      if String.eqb m "number" then or_empty (term (props st))
      else EmptyString
  | None => EmptyString
  end.

(** The object literal [params] of [getIframeSrc], its properties in the
    order they are written. *)
Definition iframe_params (st : State) : list (string * JSValue Num) :=
  let url := Url.delete "giscus" (location st) in
  let origin :=
    Url.toString url +:+
    (if JSString.nonempty (id st) then "#" +:+ id st else EmptyString) in
  let description := _getOgMetaContent "description" st in
  [ ("origin", JString origin);
    ("session", __session st);
    ("repo", JString (repo (props st)));
    ("repoId", JString (or_empty (repoId (props st))));
    ("category", JString (or_empty (category (props st))));
    ("categoryId", JString (or_empty (categoryId (props st))));
    ("term", JString (getTerm st));
    ("number", JString (getNumber st));
    ("reactionsEnabled", JString (reactionsEnabled (props st)));
    ("emitMetadata", JString (emitMetadata (props st)));
    ("inputPosition", JString (inputPosition (props st)));
    ("theme", JString (theme (props st)));
    ("description", JString description) ].

(** [new URLSearchParams(record)]: one pair per property, in property
    order, each value converted to a string. *)
Fixpoint URLSearchParams (record : list (string * JSValue Num))
  : option (list (string * string)) :=
  match record with
  | [] => Some []
  | (k, v) :: rest =>
      match JS.ToString v, URLSearchParams rest with
      | Some s, Some tail => Some ((k, s) :: tail)
      | _, _ => None
      end
  end.

(** [getIframeSrc]; [None] when converting [params] throws. *)
Definition getIframeSrc (st : State) : option string :=
  let locale :=
    if JSString.nonempty (lang (props st)) then "/" +:+ lang (props st)
    else EmptyString in
  match URLSearchParams (iframe_params st) with
  | Some searchParams =>
      Some (GISCUS_ORIGIN +:+ locale +:+ "/widget?" +:+
            Url.serialize searchParams)
  | None => None
  end.

(** [render]: the template has two bindings, the [src] and the [loading]
    attribute of the iframe. *)
Definition render (st : State) : option (string * string) :=
  match getIframeSrc st with
  | Some address => Some (address, loading (props st))
  | None => None
  end.

(** Committing the template to the render root: the two bindings are
    written into the iframe of the element, which is created on the first
    commit. *)
Definition commit (template : string * string) (st : State) : State :=
  set_iframeRef
    (Some match iframeRef st with
          | Some frame =>
              {| src := fst template;
                 loading_attr := snd template;
                 style_height := style_height frame;
                 contentWindow := contentWindow frame |}
          | None =>
              {| src := fst template;
                 loading_attr := snd template;
                 style_height := EmptyString;
                 contentWindow := Some [] |}
          end) st.

(** [this.update(changedProperties)], inherited from [LitElement]: it
    runs [render], marks the element as updated ([isUpdatePending]
    becomes [false]) and then commits the template to the render root.
    On an element that has no render root, one that was constructed but
    never connected, the commit is a [TypeError]. The call itself does
    not set [hasUpdated]. *)
Definition update : M unit :=
  template <- (fun st => try_ (render st) st) ;;
  modify (set_isUpdatePending false) ;;
  root <- gets renderRoot ;;
  if root then modify (commit template) else throw.

(** [this.iframeRef?.contentWindow?.postMessage({ giscus: message },
    this.GISCUS_ORIGIN)]. *)
Definition sendMessage (message : ISetConfigMessage) : M unit :=
  modify (fun st =>
    match iframeRef st with
    | Some frame =>
        match contentWindow frame with
        | Some posted =>
            set_iframeRef
              (Some {| src := src frame;
                       loading_attr := loading_attr frame;
                       style_height := style_height frame;
                       contentWindow :=
                         Some (posted ++
                               [ {| giscus := message;
                                    targetOrigin := GISCUS_ORIGIN |} ]) |})
              st
        | None => st
        end
    | None => st
    end).

(** The [setConfig] message built by [updateConfig]. *)
Definition setConfig_of (st : State) : ISetConfigMessage :=
  {| setConfig :=
       {| sc_repo := repo (props st);
          sc_repoId := repoId (props st);
          sc_category := category (props st);
          sc_categoryId := categoryId (props st);
          sc_term := getTerm st;
          sc_number := num_of_string (getNumber st);
          sc_reactionsEnabled := String.eqb (reactionsEnabled (props st)) "1";
          sc_emitMetadata := String.eqb (emitMetadata (props st)) "1";
          sc_inputPosition := inputPosition (props st);
          sc_theme := theme (props st);
          sc_lang := lang (props st) |} |}.

Definition updateConfig : M unit :=
  message <- gets setConfig_of ;;
  sendMessage message.

(** [super.requestUpdate(name, oldValue, options)], inherited from
    [LitElement]: an update of the element is scheduled. *)
Definition super_requestUpdate : M unit :=
  modify (set_isUpdatePending true).

Definition requestUpdate : M unit :=
  updated <- gets hasUpdated ;;
  (if negb updated then super_requestUpdate ;; return_ else pure tt) ;;
  updateConfig.

Definition set_props (p : Props) (st : State) : State :=
  Build_State p (id st) (__session st) (hasUpdated st) (isUpdatePending st)
    (iframeRef st) (location st) (document st) (localStorage st)
    (console st) (renderRoot st).

(** Reactive properties are assigned: the accessor generated by
    [@property] stores the value and calls [requestUpdate]. *)
Definition assign_props (p : Props) : M unit :=
  modify (set_props p) ;;
  requestUpdate.

(** [this.iframeRef.style.height = value]. *)
Definition set_height (value : string) : M unit :=
  modify (fun st =>
    match iframeRef st with
    | Some frame =>
        set_iframeRef
          (Some {| src := src frame;
                   loading_attr := loading_attr frame;
                   style_height := value;
                   contentWindow := contentWindow frame |}) st
    | None => st
    end).

Definition handleMessageEvent (event : MessageEvent) : M unit :=
  return_if (negb (String.eqb (origin event) GISCUS_ORIGIN)) ;;
  let data := data event in
  tag <- (if JS.typeof_object data then try_ (JS.get data "giscus")
          else pure (JBool false)) ;;
  return_if (negb (JS.truthy tag)) ;;
  frame <- gets iframeRef ;;
  (match frame with
   | Some _ =>
       resizeHeight <- try_ (JS.get tag "resizeHeight") ;;
       if JS.truthy resizeHeight then
         text <- try_ (JS.ToString resizeHeight) ;;
         set_height (text +:+ "px")
       else pure tt
   | None => pure tt
   end) ;;
  error <- try_ (JS.get tag "error") ;;
  return_if (negb (JS.truthy error)) ;;
  let message := error in
  bad_credentials <- try_ (JS.includes message "Bad credentials") ;;
  authentication <-
    (if bad_credentials then pure true
     else try_ (JS.includes message "Invalid state value")) ;;
  (if authentication then
     stored <- localStorage_getItem GISCUS_SESSION_KEY ;;
     (match stored with
      | Some _ =>
          localStorage_removeItem GISCUS_SESSION_KEY ;;
          modify (set_session (JString "")) ;;
          text <- try_ (_formatError message) ;;
          console_warn (text +:+ " Session has been cleared.") ;;
          update ;;
          return_
      | None => pure tt
      end) ;;
     text <- try_ (_formatError message) ;;
     console_error
       (text +:+ " No session is stored initially. " +:+ ERROR_SUGGESTION)
   else pure tt) ;;
  not_found <- try_ (JS.includes message "Discussion not found") ;;
  (if not_found then
     text <- try_ (JS.ToString message) ;;
     console_warn
       ("[giscus] " +:+ text +:+
        ". A new discussion will be created if a comment/reaction is submitted.") ;;
     return_
   else pure tt) ;;
  text <- try_ (_formatError message) ;;
  console_error (text +:+ " " +:+ ERROR_SUGGESTION).

(** *** Vocabulary of the statements proved below *)

(** The modes [getTerm] does not recognise, which it treats as
    [pathname]: no mode at all and every string but the five other
    names. *)
Definition pathname_mode (m : option string) : bool :=
  match m with
  | None => true
  | Some s =>
      negb (existsb (String.eqb s)
              ["url"; "title"; "og:title"; "specific"; "number"])
  end.

(** The payload is an object that carries the tag: [typeof data ===
    'object' && data.giscus] is truthy, with [tag] the value of
    [data.giscus]. *)
Definition tagged (event : MessageEvent) (tag : JSValue Num) : Prop :=
  JS.typeof_object (data event) = true /\
  JS.get (data event) "giscus" = Some tag /\
  JS.truthy tag = true.

(** The message comes from the remote origin and carries the tag. *)
Definition accepted (event : MessageEvent) (tag : JSValue Num) : Prop :=
  origin event = GISCUS_ORIGIN /\ tagged event tag.

(** The [origin] parameter: the page address without the [giscus]
    parameter, followed by [#id] when the element has an id. *)
Definition origin_param (st : State) : string :=
  Url.toString (Url.delete "giscus" (location st)) +:+
  (if JSString.nonempty (id st) then "#" +:+ id st else EmptyString).

(** The query of the frame address, for a session printed as [session]. *)
Definition query (st : State) (session : string)
  : list (string * string) :=
  [ ("origin", origin_param st);
    ("session", session);
    ("repo", repo (props st));
    ("repoId", or_empty (repoId (props st)));
    ("category", or_empty (category (props st)));
    ("categoryId", or_empty (categoryId (props st)));
    ("term", getTerm st);
    ("number", getNumber st);
    ("reactionsEnabled", reactionsEnabled (props st));
    ("emitMetadata", emitMetadata (props st));
    ("inputPosition", inputPosition (props st));
    ("theme", theme (props st));
    ("description", _getOgMetaContent "description" st) ].

Definition locale (st : State) : string :=
  if JSString.nonempty (lang (props st)) then "/" +:+ lang (props st)
  else EmptyString.

(** The height last assigned to the frame; empty without a frame. *)
Definition height (st : State) : string :=
  match iframeRef st with
  | Some frame => style_height frame
  | None => EmptyString
  end.

(** The address the frame was rendered with, if there is a frame. *)
Definition frame_src (st : State) : option string :=
  match iframeRef st with
  | Some frame => Some (src frame)
  | None => None
  end.

(** The texts the handler logs for an error [message]. *)
Definition error_text (message : string) : string :=
  "[giscus] An error occurred. Error message: " +:+
  String (ascii_of_nat 34) message +:+ String (ascii_of_nat 34) ".".

Definition cleared_warning (message : string) : Level * string :=
  (Warn, error_text message +:+ " Session has been cleared.").

Definition no_session_error (message : string) : Level * string :=
  (Error,
   error_text message +:+ " No session is stored initially. " +:+
   ERROR_SUGGESTION).

Definition not_found_warning (message : string) : Level * string :=
  (Warn,
   "[giscus] " +:+ message +:+
   ". A new discussion will be created if a comment/reaction is submitted.").

Definition unrecoverable_error (message : string) : Level * string :=
  (Error, error_text message +:+ " " +:+ ERROR_SUGGESTION).

(** The error text reports an authentication failure. *)
Definition authentication_failure (message : string) : bool :=
  JSString.includes message "Bad credentials" ||
  JSString.includes message "Invalid state value".

(** The address of the frame for a session printed as [session]. *)
Definition address (st : State) (session : string) : string :=
  GISCUS_ORIGIN +:+ locale st +:+ "/widget?" +:+
  Url.serialize (query st session).

(** One more entry on the console. *)
Definition logged (entry : Level * string) (st : State) : State :=
  set_console (console st ++ [entry]) st.

(** The token is gone, from the store and from the element. *)
Definition invalidated (st : State) : State :=
  set_session (JString "")
    (set_localStorage (delete GISCUS_SESSION_KEY (localStorage st)) st).

(** The element rendered again on its render root: no update is pending
    any more, and its frame, created if there was none, points at the
    address computed from the current state, for a session printed as
    [session]. *)
Definition rendered (session : string) (st : State) : State :=
  commit (address st session, loading (props st))
    (set_isUpdatePending false st).

(** The state after the resize block of the handler, for a payload whose
    [resizeHeight] is [v]. *)
Definition resized (v : JSValue Num) (st : State) : State :=
  match iframeRef st, JS.truthy v, JS.ToString v with
  | Some frame, true, Some text =>
      set_iframeRef
        (Some {| src := src frame;
                 loading_attr := loading_attr frame;
                 style_height := text +:+ "px";
                 contentWindow := contentWindow frame |}) st
  | _, _, _ => st
  end.

(** The error block of the handler in closed form, for an error text
    [message] and the state [st] the resize block left: the way the call
    ends and the state it leaves. *)
Definition reported (message : string) (st : State) : Completion unit :=
  if authentication_failure message then
    match localStorage st !! GISCUS_SESSION_KEY with
    | Some _ =>
        if renderRoot st then
          Returned
            (rendered EmptyString
               (logged (cleared_warning message) (invalidated st)))
        else
          Thrown
            (set_isUpdatePending false
               (logged (cleared_warning message) (invalidated st)))
    | None =>
        if JSString.includes message "Discussion not found" then
          Returned (logged (not_found_warning message)
                      (logged (no_session_error message) st))
        else
          Normal tt (logged (unrecoverable_error message)
                       (logged (no_session_error message) st))
    end
  else if JSString.includes message "Discussion not found" then
    Returned (logged (not_found_warning message) st)
  else
    Normal tt (logged (unrecoverable_error message) st).

(** *** The life cycle of the element and the listener on [window]

    What [LitElement] does in its own [connectedCallback] and
    [disconnectedCallback] (render root, update queue, the directives of
    the template) is left open: the results below hold whatever these
    two functions do to the element. *)

Variable LitElement_connectedCallback : State -> State.
Variable LitElement_disconnectedCallback : State -> State.

(** The element and whether [messageEventHandler], the one bound handler
    of the instance, is registered on [window] for [message] events. *)
Record Host := {
  element : State;
  listening : bool
}.

(** [constructor()], entered with the fields of the instance at their
    initial values: [setupSession], then [window.addEventListener]; the
    listener is not reached when [setupSession] throws. *)
Definition constructor (st : State) : Host :=
  match setupSession st with
  | Normal _ st' | Returned st' => {| element := st'; listening := true |}
  | Thrown st' => {| element := st'; listening := false |}
  end.

(** [connectedCallback()]: nothing but the inherited callback. *)
Definition connectedCallback (h : Host) : Host :=
  {| element := LitElement_connectedCallback (element h);
     listening := listening h |}.

(** [disconnectedCallback()]: the inherited callback, then
    [window.removeEventListener]. *)
Definition disconnectedCallback (h : Host) : Host :=
  {| element := LitElement_disconnectedCallback (element h);
     listening := false |}.

(** A [message] event dispatched on [window]: the handler runs when it is
    registered; what it throws is reported by the browser and goes no
    further. *)
Definition dispatch (event : MessageEvent) (h : Host) : Host :=
  if listening h then
    {| element := final (handleMessageEvent event (element h));
       listening := true |}
  else h.

(** What happens to a host over time. *)
Inductive Step :=
| Connect
| Disconnect
| Message (event : MessageEvent)
| Assign (p : Props).

Definition step (h : Host) (s : Step) : Host :=
  match s with
  | Connect => connectedCallback h
  | Disconnect => disconnectedCallback h
  | Message event => dispatch event h
  | Assign p =>
      {| element := final (assign_props p (element h));
         listening := listening h |}
  end.

Definition steps (trace : list Step) (h : Host) : Host :=
  fold_left step trace h.

Definition is_message (s : Step) : bool :=
  match s with
  | Message _ => true
  | _ => false
  end.

(** *** More vocabulary *)

(** The messages posted so far to the window of the frame. *)
Definition posted_of (st : State) : list Posted :=
  match iframeRef st with
  | Some frame =>
      match contentWindow frame with
      | Some posted => posted
      | None => []
      end
  | None => []
  end.

(** The selector of [_getOgMetaContent] on one [<meta>] element. *)
Definition meta_matches (property : string) (m : Meta) : bool :=
  match meta_property m with
  | Some p => String.eqb p ("og:" +:+ property)
  | None => false
  end ||
  match meta_name m with
  | Some n => String.eqb n property
  | None => false
  end.

(** The same element on a page with other [<meta>] elements. *)
Definition set_metas (l : list Meta) (st : State) : State :=
  Build_State (props st) (id st) (__session st) (hasUpdated st)
    (isUpdatePending st) (iframeRef st) (location st)
    {| title := title (document st); metas := l |} (localStorage st)
    (console st) (renderRoot st).

(** The same configuration with another [loading]. *)
Definition with_loading (value : string) (p : Props) : Props :=
  {| repo := repo p;
     repoId := repoId p;
     category := category p;
     categoryId := categoryId p;
     mapping := mapping p;
     term := term p;
     reactionsEnabled := reactionsEnabled p;
     emitMetadata := emitMetadata p;
     inputPosition := inputPosition p;
     theme := theme p;
     lang := lang p;
     loading := value |}.

End Widget.

Arguments SetConfig Num : clear implicits.
Arguments ISetConfigMessage Num : clear implicits.
Arguments Posted Num : clear implicits.
Arguments Iframe Num : clear implicits.
Arguments MessageEvent Num : clear implicits.
Arguments State Num : clear implicits.
Arguments Completion Num A : clear implicits.
Arguments M Num A : clear implicits.
Arguments Normal {Num A} a st.
Arguments Returned {Num A} st.
Arguments Thrown {Num A} st.
Arguments Host Num : clear implicits.
Arguments Step Num : clear implicits.

End Giscus.

(** ** A concrete engine, to run the widget

    Numbers restricted to the integers and [NaN] ([None]): enough for pixel
    heights and discussion numbers. A numeric string that is not a plain
    integer reads as [NaN] here. *)

Module Reference.

#[export] Instance integers : NumberOps (option Z) := {
  num_truthy n :=
    match n with
    | Some z => negb (z =? 0)%Z
    | None => false
    end;
  num_to_string n :=
    match n with
    | Some z => NilZero.string_of_int (Z.to_int z)
    | None => "NaN"
    end;
  num_of_string s :=
    match s with
    | EmptyString => Some 0%Z
    | _ =>
        match NilZero.int_of_string s with
        | Some d => Some (Z.of_int d)
        | None => None
        end
    end
}.

Definition Value : Type := JSValue (option Z).

Definition JSON_parse : string -> Value + string := Json.parse.

Definition default_props : Giscus.Props :=
  {| Giscus.repo := "giscus/giscus-component";
     Giscus.repoId := None;
     Giscus.category := None;
     Giscus.categoryId := None;
     Giscus.mapping := None;
     Giscus.term := None;
     Giscus.reactionsEnabled := "1";
     Giscus.emitMetadata := "0";
     Giscus.inputPosition := "bottom";
     Giscus.theme := "light";
     Giscus.lang := "en";
     Giscus.loading := "eager" |}.

Definition page (path : string) (query : list (string * string)) : Url.URL :=
  {| Url.protocol := "https:";
     Url.host := "example.com";
     Url.pathname := path;
     Url.searchParams := query;
     Url.hash := EmptyString |}.

(** A freshly constructed element on the given page, before
    [setupSession] has run. *)
Definition fresh (p : Giscus.Props) (u : Url.URL)
  (storage : gmap string string) : Giscus.State (option Z) :=
  {| Giscus.props := p;
     Giscus.id := EmptyString;
     Giscus.__session := JString EmptyString;
     Giscus.hasUpdated := false;
     Giscus.isUpdatePending := false;
     Giscus.iframeRef := None;
     Giscus.location := u;
     Giscus.document := {| Giscus.title := "A post"; Giscus.metas := [] |};
     Giscus.localStorage := storage;
     Giscus.console := [];
     Giscus.renderRoot := false |}.

(** A status message of the remote: [{ giscus: fields }] from its
    origin. *)
Definition status (fields : list (string * Value))
  : Giscus.MessageEvent (option Z) :=
  {| Giscus.origin := Giscus.GISCUS_ORIGIN;
     Giscus.data := JObject [("giscus", JObject fields)] |}.

(** The element after its first render, with a live frame. *)
Definition attached (p : Giscus.Props) (u : Url.URL)
  (storage : gmap string string) (session : string)
  : Giscus.State (option Z) :=
  {| Giscus.props := p;
     Giscus.id := EmptyString;
     Giscus.__session := JString session;
     Giscus.hasUpdated := true;
     Giscus.isUpdatePending := false;
     Giscus.iframeRef :=
       Some {| Giscus.src :=
                 Giscus.address (fresh p u storage) session;
               Giscus.loading_attr := Giscus.loading p;
               Giscus.style_height := EmptyString;
               Giscus.contentWindow := Some [] |};
     Giscus.location := u;
     Giscus.document := {| Giscus.title := "A post"; Giscus.metas := [] |};
     Giscus.localStorage := storage;
     Giscus.console := [];
     Giscus.renderRoot := true |}.

Definition with_mapping (m : string) (p : Giscus.Props) : Giscus.Props :=
  {| Giscus.repo := Giscus.repo p;
     Giscus.repoId := Giscus.repoId p;
     Giscus.category := Giscus.category p;
     Giscus.categoryId := Giscus.categoryId p;
     Giscus.mapping := Some m;
     Giscus.term := Giscus.term p;
     Giscus.reactionsEnabled := Giscus.reactionsEnabled p;
     Giscus.emitMetadata := Giscus.emitMetadata p;
     Giscus.inputPosition := Giscus.inputPosition p;
     Giscus.theme := Giscus.theme p;
     Giscus.lang := Giscus.lang p;
     Giscus.loading := Giscus.loading p |}.

(** The store with one token under the session key. *)
Definition stored (raw : string) : gmap string string :=
  {[ Giscus.GISCUS_SESSION_KEY := raw ]}.

(** A message from some other origin. *)
Definition foreign (v : Value) : Giscus.MessageEvent (option Z) :=
  {| Giscus.origin := "https://evil.example"; Giscus.data := v |}.

(** The configuration [{repo: "a/b", theme: "dark", lang: "fr"}]. *)
Definition dark_french : Giscus.Props :=
  {| Giscus.repo := "a/b";
     Giscus.repoId := None;
     Giscus.category := None;
     Giscus.categoryId := None;
     Giscus.mapping := None;
     Giscus.term := None;
     Giscus.reactionsEnabled := "1";
     Giscus.emitMetadata := "0";
     Giscus.inputPosition := "bottom";
     Giscus.theme := "dark";
     Giscus.lang := "fr";
     Giscus.loading := "eager" |}.

End Reference.

(** * Verification *)

(** ** Strings *)

Module JSStringFacts.
Import JSString.

Lemma startsWith_app (p s : string) : startsWith p (p +:+ s) = true.
Proof.
  induction p as [|a p IH]; simpl; [reflexivity|].
  rewrite Ascii.eqb_refl. exact IH.
Qed.

Lemma startsWith_inv (p s : string) :
  startsWith p s = true -> exists post, s = p +:+ post.
Proof.
  revert s. induction p as [|a p IH]; intros s Hs.
  - exists s. reflexivity.
  - destruct s as [|b s]; simpl in Hs; [discriminate|].
    apply andb_true_iff in Hs as [Hab Hp].
    apply Ascii.eqb_eq in Hab. subst b.
    destruct (IH _ Hp) as [post ->]. exists post. reflexivity.
Qed.

Lemma includes_unfold (s sub : string) :
  includes s sub =
  startsWith sub s ||
  match s with
  | EmptyString => false
  | String _ s' => includes s' sub
  end.
Proof. destruct s; reflexivity. Qed.

(** [includes] decides the substring relation. *)
Lemma includes_spec (s sub : string) :
  includes s sub = true <-> exists pre post, s = pre +:+ sub +:+ post.
Proof.
  split.
  - induction s as [|c s IH]; simpl; intros Hs.
    + apply orb_true_iff in Hs as [Hs|Hs]; [|discriminate].
      apply startsWith_inv in Hs as [post ->].
      exists EmptyString, post. reflexivity.
    + apply orb_true_iff in Hs as [Hs|Hs].
      * apply startsWith_inv in Hs as [post ->].
        exists EmptyString, post. reflexivity.
      * destruct (IH Hs) as (pre & post & ->).
        exists (String c pre), post. reflexivity.
  - intros (pre & post & ->).
    induction pre as [|c pre IH].
    + change (EmptyString +:+ sub +:+ post) with (sub +:+ post).
      rewrite includes_unfold, startsWith_app. reflexivity.
    + change (String c pre +:+ sub +:+ post)
        with (String c (pre +:+ sub +:+ post)).
      rewrite includes_unfold, IH. apply orb_true_r.
Qed.

Lemma all_word_no_dot (s t : string) : all_word (s +:+ String "." t) = false.
Proof.
  induction s as [|c s IH]; simpl; [reflexivity|].
  rewrite IH. apply andb_false_r.
Qed.

(** A final extension, a dot and word characters, is cut off; nothing else
    of the string is touched, dots in the stem included. *)
Lemma replace_ext_strips (stem ext : string) :
  ext <> EmptyString -> all_word ext = true ->
  replace_ext (stem +:+ String "." ext) = stem.
Proof.
  intros Hne Hw. induction stem as [|c stem IH].
  - destruct ext as [|e ext]; [congruence|].
    simpl in Hw. simpl. rewrite Hw. reflexivity.
  - change (String c stem +:+ String "." ext)
      with (String c (stem +:+ String "." ext)).
    assert (Hno : ext_at_head (String c (stem +:+ String "." ext)) = false).
    { unfold ext_at_head.
      destruct (stem +:+ String "." ext) as [|d rest] eqn:E.
      - destruct c as [[] [] [] [] [] [] [] []]; reflexivity.
      - change (is_word d && all_word rest) with (all_word (String d rest)).
        rewrite <- E, all_word_no_dot.
        destruct c as [[] [] [] [] [] [] [] []]; reflexivity. }
    unfold replace_ext; fold replace_ext. rewrite Hno, IH. reflexivity.
Qed.

Lemma length_append (s t : string) :
  String.length (s +:+ t) = (String.length s + String.length t)%nat.
Proof.
  induction s as [|c s IH]; simpl; [reflexivity|].
  rewrite IH. reflexivity.
Qed.

Lemma append_empty_r (s : string) : s +:+ EmptyString = s.
Proof.
  induction s as [|c s IH]; [reflexivity|].
  change (String c (s +:+ EmptyString) = String c s). rewrite IH.
  reflexivity.
Qed.

Lemma ext_at_head_inv (s : string) :
  ext_at_head s = true ->
  exists e ext, s = String "." (String e ext) /\
                all_word (String e ext) = true.
Proof.
  destruct s as [|d [|e ext]]; [discriminate| |].
  - destruct d as [[] [] [] [] [] [] [] []]; discriminate.
  - destruct d as [[] [] [] [] [] [] [] []]; try discriminate.
    intros Hw. exists e, ext. split; [reflexivity|exact Hw].
Qed.

(** What [replace_ext] removes is at the end of the string, and it is
    either nothing or an extension. *)
Lemma replace_ext_cut (s : string) :
  exists rest,
    s = replace_ext s +:+ rest /\
    (rest = EmptyString \/ ext_at_head rest = true).
Proof.
  induction s as [|c s (rest & Hs & Hrest)].
  - exists EmptyString. split; [reflexivity|left; reflexivity].
  - unfold replace_ext; fold replace_ext.
    destruct (ext_at_head (String c s)) eqn:Hhead.
    + exists (String c s). split; [reflexivity|right; exact Hhead].
    + exists rest. split; [|exact Hrest].
      change (String c s = String c (replace_ext s +:+ rest)).
      f_equal. exact Hs.
Qed.

Lemma replace_ext_empty (s : string) :
  replace_ext s = EmptyString <->
  s = EmptyString \/ ext_at_head s = true.
Proof.
  split.
  - destruct s as [|c s]; [left; reflexivity|].
    unfold replace_ext; fold replace_ext.
    destruct (ext_at_head (String c s)); [right; reflexivity|].
    discriminate.
  - intros [->|Hhead]; [reflexivity|].
    destruct s as [|c s]; [reflexivity|].
    unfold replace_ext; fold replace_ext.
    rewrite Hhead. reflexivity.
Qed.

End JSStringFacts.

(** ** The serializer of [URLSearchParams] *)

Module UrlFacts.

Lemma count_append (c : ascii) (s t : string) :
  JSString.count c (s +:+ t) = (JSString.count c s + JSString.count c t)%nat.
Proof.
  induction s as [|d s IH]; [reflexivity|].
  change (String d s +:+ t) with (String d (s +:+ t)).
  simpl. rewrite IH. lia.
Qed.

(** No byte is serialized to a separator: the encoded form of a string
    has no [&], no [=], no [#], no [?] and no space. *)
Lemma encode_byte_clean (b : ascii) :
  JSString.count "&" (Url.encode_byte b) = 0%nat /\
  JSString.count "=" (Url.encode_byte b) = 0%nat /\
  JSString.count "#" (Url.encode_byte b) = 0%nat /\
  JSString.count "?" (Url.encode_byte b) = 0%nat /\
  JSString.count " " (Url.encode_byte b) = 0%nat.
Proof.
  destruct b as [[] [] [] [] [] [] [] []]; vm_compute; repeat split.
Qed.

Lemma encode_clean (s : string) :
  JSString.count "&" (Url.encode s) = 0%nat /\
  JSString.count "=" (Url.encode s) = 0%nat /\
  JSString.count "#" (Url.encode s) = 0%nat /\
  JSString.count "?" (Url.encode s) = 0%nat /\
  JSString.count " " (Url.encode s) = 0%nat.
Proof.
  induction s as [|b s (Ha & He & Hh & Hq & Hs)];
    [repeat split; reflexivity|].
  destruct (encode_byte_clean b) as (Ha' & He' & Hh' & Hq' & Hs').
  change (Url.encode (String b s))
    with (Url.encode_byte b +:+ Url.encode s).
  rewrite !count_append. repeat split; lia.
Qed.

Lemma serialize_counts (params : list (string * string)) :
  JSString.count "&" (Url.serialize params) = (length params - 1)%nat /\
  JSString.count "=" (Url.serialize params) = length params /\
  JSString.count "#" (Url.serialize params) = 0%nat /\
  JSString.count "?" (Url.serialize params) = 0%nat /\
  JSString.count " " (Url.serialize params) = 0%nat.
Proof.
  unfold Url.serialize.
  induction params as [|[k v] params (Ha & He & Hh & Hq & Hs)];
    [repeat split; reflexivity|].
  destruct (encode_clean k) as (Hka & Hke & Hkh & Hkq & Hks).
  destruct (encode_clean v) as (Hva & Hve & Hvh & Hvq & Hvs).
  set (f := fun kv : string * string =>
              Url.encode (fst kv) +:+ "=" +:+ Url.encode (snd kv)) in *.
  destruct params as [|p params].
  - change (JSString.join "&" (map f [(k, v)]))
      with (Url.encode k +:+ "=" +:+ Url.encode v).
    rewrite !count_append. simpl. repeat split; lia.
  - set (rest := JSString.join "&" (map f (p :: params))) in *.
    change (JSString.join "&" (map f ((k, v) :: p :: params)))
      with ((Url.encode k +:+ "=" +:+ Url.encode v) +:+ "&" +:+ rest).
    rewrite !count_append.
    simpl length in *. simpl JSString.count. repeat split; lia.
Qed.

(** Decoding undoes the serialization of a byte, whatever follows. *)
Lemma decode_encode_byte (b : ascii) (rest : string) :
  Url.decode (Url.encode_byte b +:+ rest) = String b (Url.decode rest).
Proof.
  destruct b as [[] [] [] [] [] [] [] []]; reflexivity.
Qed.

Lemma append_assoc (a b c : string) : (a +:+ b) +:+ c = a +:+ b +:+ c.
Proof.
  induction a as [|x a IH]; [reflexivity|].
  change (String x ((a +:+ b) +:+ c) = String x (a +:+ b +:+ c)).
  rewrite IH. reflexivity.
Qed.

Lemma decode_encode (s : string) : Url.decode (Url.encode s) = s.
Proof.
  induction s as [|b s IH]; [reflexivity|].
  change (Url.encode (String b s))
    with (Url.encode_byte b +:+ Url.encode s).
  rewrite decode_encode_byte, IH. reflexivity.
Qed.

End UrlFacts.

(** ** The widget *)

Section Verification.
Import Giscus.
Context {Num : Type} `{NumberOps Num}.
Variable JSON_parse : string -> JSValue Num + string.

(** Lit's own callbacks, of which nothing is assumed. *)
Variable LitElement_connectedCallback : State Num -> State Num.
Variable LitElement_disconnectedCallback : State Num -> State Num.

Local Abbreviation run_steps :=
  (steps LitElement_connectedCallback LitElement_disconnectedCallback).

Lemma getTerm_pathname_case (st : State Num) :
  pathname_mode (mapping (props st)) = true ->
  getTerm st =
  if (String.length (Url.pathname (location st)) <? 2)%nat then "index"
  else JSString.replace_ext (JSString.substring1 (Url.pathname (location st))).
Proof.
  unfold pathname_mode, getTerm.
  destruct (mapping (props st)) as [m|]; [|reflexivity].
  simpl. rewrite !orb_false_r. intros Hm.
  repeat (apply negb_true_iff in Hm; apply orb_false_iff in Hm as [-> Hm];
          apply negb_true_iff in Hm).
  apply negb_true_iff in Hm. rewrite Hm. reflexivity.
Qed.

(** C8. The term depends on nothing but the mapping mode, the configured
    term, the document (title and meta tags) and the page address: two
    states that agree on these resolve to the same term, in every mode. In
    [pathname] mode, and in every unrecognised mode, a pathname of fewer
    than two characters gives [index]. A longer pathname loses its first
    character and its final extension, a dot and one or more word
    characters up to the end, and nothing else: when it ends in such an
    extension the term is what stands between the first character and
    that dot; when it does not, the term is everything after the first
    character. In both cases what is cut off at the end is nothing or an
    extension. [/] gives [index], [/posts/a.html] gives [posts/a],
    [/posts/a] gives [posts/a] and [/dir.v2/] gives [dir.v2/]. *)
Theorem getTerm_deterministic_pathname :
  (forall st1 st2 : State Num,
      mapping (props st1) = mapping (props st2) ->
      term (props st1) = term (props st2) ->
      document st1 = document st2 ->
      location st1 = location st2 ->
      getTerm st1 = getTerm st2) /\
  (forall st : State Num,
      pathname_mode (mapping (props st)) = true ->
      let path := Url.pathname (location st) in
      ((String.length path < 2)%nat -> getTerm st = "index") /\
      (forall c stem ext,
          path = String c (stem +:+ String "." ext) ->
          ext <> EmptyString -> JSString.all_word ext = true ->
          getTerm st = stem) /\
      ((2 <= String.length path)%nat ->
       (forall c stem ext,
           path = String c (stem +:+ String "." ext) ->
           ext = EmptyString \/ JSString.all_word ext = false) ->
       getTerm st = JSString.substring1 path) /\
      ((2 <= String.length path)%nat ->
       exists rest,
         JSString.substring1 path = getTerm st +:+ rest /\
         (rest = EmptyString \/ JSString.ext_at_head rest = true)) /\
      (path = "/" -> getTerm st = "index") /\
      (path = "/posts/a.html" -> getTerm st = "posts/a") /\
      (path = "/posts/a" -> getTerm st = "posts/a") /\
      (path = "/dir.v2/" -> getTerm st = "dir.v2/")).
Proof.
  split.
  - intros st1 st2 Hm Ht Hd Hl.
    unfold getTerm, _getOgMetaContent. rewrite Hm, Ht, Hd, Hl. reflexivity.
  - intros st Hmode path.
    pose proof (getTerm_pathname_case st Hmode) as Hcase. fold path in Hcase.
    repeat apply conj.
    + intros Hlen. rewrite Hcase.
      destruct (Nat.ltb_spec (String.length path) 2); [reflexivity|lia].
    + intros c stem ext Hp Hne Hw. rewrite Hcase, Hp. simpl.
      assert (Hlong : (S (String.length (stem +:+ String "." ext)) <? 2)%nat
                      = false) by (destruct stem; reflexivity).
      rewrite Hlong.
      apply JSStringFacts.replace_ext_strips; assumption.
    + intros Hlong Hnone. rewrite Hcase.
      destruct (Nat.ltb_spec (String.length path) 2); [lia|].
      destruct path as [|c tail] eqn:Hpath; [simpl in Hlong; lia|].
      simpl JSString.substring1.
      destruct (JSStringFacts.replace_ext_cut tail)
        as (rest & Htail & [->|Hext]).
      * rewrite JSStringFacts.append_empty_r in Htail. congruence.
      * exfalso.
        apply JSStringFacts.ext_at_head_inv in Hext as (e & ext & -> & Hw).
        destruct (Hnone c (JSString.replace_ext tail) (String e ext))
          as [Hempty|Hword].
        -- f_equal. exact Htail.
        -- discriminate.
        -- congruence.
    + intros Hlong. rewrite Hcase.
      destruct (Nat.ltb_spec (String.length path) 2); [lia|].
      apply JSStringFacts.replace_ext_cut.
    + intros Hp. rewrite Hcase, Hp. reflexivity.
    + intros Hp. rewrite Hcase, Hp. reflexivity.
    + intros Hp. rewrite Hcase, Hp. reflexivity.
    + intros Hp. rewrite Hcase, Hp. reflexivity.
Qed.

(** In [url] mode [getTerm] returns the global [origin], the serialized
    origin of the page, whatever the path and the query of the page
    address are. *)
Lemma getTerm_url_is_window_origin (st : State Num) :
  mapping (props st) = Some "url" ->
  getTerm st = Url.origin (location st).
Proof. intros Hm. unfold getTerm. rewrite Hm. reflexivity. Qed.

(** And the origin of a page is never its address: on a page whose
    origin is its scheme and host, the term of the [url] mode differs
    from the page address without the [giscus] parameter, which has the
    path after the host. *)
Lemma getTerm_url_is_not_the_address (st : State Num) :
  mapping (props st) = Some "url" ->
  Url.origin (location st) =
  Url.protocol (location st) +:+ "//" +:+ Url.host (location st) ->
  Url.pathname (location st) <> EmptyString ->
  getTerm st <> Url.toString (Url.delete "giscus" (location st)).
Proof.
  intros Hm Horigin Hpath Heq.
  rewrite (getTerm_url_is_window_origin st Hm), Horigin in Heq.
  apply (f_equal String.length) in Heq.
  unfold Url.toString, Url.delete in Heq. simpl in Heq.
  rewrite !JSStringFacts.length_append in Heq.
  destruct (Url.pathname (location st)); [congruence|].
  simpl in Heq. lia.
Qed.

(** *** Inbound messages *)

Ltac run :=
  unfold handleMessageEvent, requestUpdate, updateConfig, assign_props,
    super_requestUpdate, sendMessage, update, set_height, setupSession,
    localStorage_getItem, localStorage_setItem, localStorage_removeItem,
    console_warn, console_error, history_replaceState,
    return_if, bind, pure, return_, throw, modify, gets, try_.

(** C6. A message from another origin, or one whose payload is not an
    object carrying the tag, leaves the whole state as it was: the active
    token, the store, the frame and its height, and the console. The
    handler then returns; only on the payload [null], which passes the
    [typeof] test, it ends by the [TypeError] of reading [null.giscus],
    with the state unchanged all the same. *)
Theorem handleMessageEvent_ignores (event : MessageEvent Num) (st : State Num) :
  origin event <> GISCUS_ORIGIN \/ (forall tag, ~ tagged event tag) ->
  final (handleMessageEvent event st) = st /\
  (threw (handleMessageEvent event st) = true ->
   origin event = GISCUS_ORIGIN /\ data event = JNull).
Proof.
  intros Hignored. run.
  destruct (String.eqb (origin event) GISCUS_ORIGIN) eqn:Horigin; simpl;
    [|split; [reflexivity|discriminate]].
  apply String.eqb_eq in Horigin.
  destruct Hignored as [Hother|Huntagged]; [contradiction|].
  destruct (JS.typeof_object (data event)) eqn:Hobject; simpl;
    [|split; [reflexivity|discriminate]].
  destruct (JS.get (data event) "giscus") as [tag|] eqn:Hget; simpl.
  - destruct (JS.truthy tag) eqn:Htruthy; simpl;
      [|split; [reflexivity|discriminate]].
    exfalso. apply (Huntagged tag). repeat split; assumption.
  - split; [reflexivity|]. intros _. split; [assumption|].
    destruct (data event); simpl in Hobject, Hget; congruence.
Qed.

(** *** The address of the frame *)

Lemma URLSearchParams_iframe_params (st : State Num) (session : string) :
  JS.ToString (__session st) = Some session ->
  URLSearchParams (iframe_params st) = Some (query st session).
Proof.
  intros Hsession. unfold iframe_params, query. simpl.
  rewrite Hsession. reflexivity.
Qed.

(** The address for a token that prints as a string. *)
Lemma getIframeSrc_printed (st : State Num) (session : string) :
  JS.ToString (__session st) = Some session ->
  getIframeSrc st = Some (address st session).
Proof.
  intros Hsession. unfold getIframeSrc.
  rewrite (URLSearchParams_iframe_params st session Hsession).
  reflexivity.
Qed.

(** The address with its query written out. *)
Lemma address_written_out (st : State Num) (session : string) :
  address st session =
  GISCUS_ORIGIN +:+ locale st +:+ "/widget" +:+
  "?origin=" +:+ Url.encode (origin_param st) +:+
  "&session=" +:+ Url.encode session +:+
  "&repo=" +:+ Url.encode (repo (props st)) +:+
  "&repoId=" +:+ Url.encode (or_empty (repoId (props st))) +:+
  "&category=" +:+ Url.encode (or_empty (category (props st))) +:+
  "&categoryId=" +:+ Url.encode (or_empty (categoryId (props st))) +:+
  "&term=" +:+ Url.encode (getTerm st) +:+
  "&number=" +:+ Url.encode (getNumber st) +:+
  "&reactionsEnabled=" +:+ Url.encode (reactionsEnabled (props st)) +:+
  "&emitMetadata=" +:+ Url.encode (emitMetadata (props st)) +:+
  "&inputPosition=" +:+ Url.encode (inputPosition (props st)) +:+
  "&theme=" +:+ Url.encode (theme (props st)) +:+
  "&description=" +:+ Url.encode (_getOgMetaContent "description" st).
Proof.
  unfold address, Url.serialize, query, GISCUS_ORIGIN.
  cbn [map JSString.join fst snd].
  rewrite !UrlFacts.append_assoc. reflexivity.
Qed.

(** C5. Whenever the active token prints as a string (it is one after
    [setupSession] on a well-formed store), the address of the frame is
    this text: the remote origin, then [/lang] when a language is
    configured, then [/widget], then [?origin=], [&session=], [&repo=],
    [&repoId=], [&category=], [&categoryId=], [&term=], [&number=],
    [&reactionsEnabled=], [&emitMetadata=], [&inputPosition=], [&theme=]
    and [&description=], in this order, each followed by its value in
    percent-encoded form. The encoded form of a value decodes to that
    value and contains no [&], [=], [#], [?] or space. An optional field
    that is missing is present with nothing after its [=]. For the
    configuration [{repo: "a/b", theme: "dark", lang: "fr"}] without a
    session on the page [https://example.com/posts/a.html?giscus=XYZ]
    the address is the one given last. *)
Theorem getIframeSrc_address (st : State Num) (session : string) :
  JS.ToString (__session st) = Some session ->
  getIframeSrc st =
  Some (GISCUS_ORIGIN +:+ locale st +:+ "/widget" +:+
        "?origin=" +:+ Url.encode (origin_param st) +:+
        "&session=" +:+ Url.encode session +:+
        "&repo=" +:+ Url.encode (repo (props st)) +:+
        "&repoId=" +:+ Url.encode (or_empty (repoId (props st))) +:+
        "&category=" +:+ Url.encode (or_empty (category (props st))) +:+
        "&categoryId=" +:+ Url.encode (or_empty (categoryId (props st))) +:+
        "&term=" +:+ Url.encode (getTerm st) +:+
        "&number=" +:+ Url.encode (getNumber st) +:+
        "&reactionsEnabled=" +:+ Url.encode (reactionsEnabled (props st)) +:+
        "&emitMetadata=" +:+ Url.encode (emitMetadata (props st)) +:+
        "&inputPosition=" +:+ Url.encode (inputPosition (props st)) +:+
        "&theme=" +:+ Url.encode (theme (props st)) +:+
        "&description=" +:+
        Url.encode (_getOgMetaContent "description" st)) /\
  (lang (props st) = EmptyString -> locale st = EmptyString) /\
  (lang (props st) <> EmptyString -> locale st = "/" +:+ lang (props st)) /\
  (forall value,
      Url.decode (Url.encode value) = value /\
      JSString.count "&" (Url.encode value) = 0%nat /\
      JSString.count "=" (Url.encode value) = 0%nat /\
      JSString.count "#" (Url.encode value) = 0%nat /\
      JSString.count "?" (Url.encode value) = 0%nat /\
      JSString.count " " (Url.encode value) = 0%nat) /\
  (repoId (props st) = None ->
   Url.encode (or_empty (repoId (props st))) = EmptyString) /\
  (category (props st) = None ->
   Url.encode (or_empty (category (props st))) = EmptyString) /\
  (categoryId (props st) = None ->
   Url.encode (or_empty (categoryId (props st))) = EmptyString) /\
  (term (props st) = None -> Url.encode (getNumber st) = EmptyString) /\
  (props st = Reference.dark_french ->
   id st = EmptyString ->
   location st = Reference.page "/posts/a.html" [("giscus", "XYZ")] ->
   metas (document st) = [] ->
   session = EmptyString ->
   getIframeSrc st =
   Some ("https://giscus.app/fr/widget" +:+
         "?origin=https%3A%2F%2Fexample.com%2Fposts%2Fa.html" +:+
         "&session=&repo=a%2Fb&repoId=&category=&categoryId=" +:+
         "&term=posts%2Fa&number=&reactionsEnabled=1&emitMetadata=0" +:+
         "&inputPosition=bottom&theme=dark&description=")).
Proof.
  intros Hsession.
  assert (Haddress : getIframeSrc st = Some (address st session))
    by (apply getIframeSrc_printed; exact Hsession).
  repeat apply conj.
  - rewrite Haddress, address_written_out. reflexivity.
  - unfold locale. intros ->. reflexivity.
  - unfold locale. destruct (lang (props st)); [congruence|reflexivity].
  - intros value. split; [apply UrlFacts.decode_encode|].
    apply UrlFacts.encode_clean.
  - intros ->. reflexivity.
  - intros ->. reflexivity.
  - intros ->. reflexivity.
  - intros Hnone. unfold getNumber. rewrite Hnone.
    destruct (mapping (props st)) as [m|]; [|reflexivity].
    destruct (String.eqb m "number"); reflexivity.
  - intros Hprops Hid Hlocation Hmetas ->.
    rewrite Haddress. unfold address, locale, query, origin_param, getTerm,
      getNumber, _getOgMetaContent.
    rewrite Hprops, Hid, Hlocation, Hmetas. reflexivity.
Qed.

Lemma formatError_string (message : string) :
  _formatError (JString message : JSValue Num) = Some (error_text message).
Proof. reflexivity. Qed.

Lemma authentication_failure_nonempty (message : string) :
  authentication_failure message = true -> JSString.nonempty message = true.
Proof. destruct message; [discriminate|reflexivity]. Qed.

Lemma truthy_string (s : string) :
  JS.truthy (JString s : JSValue Num) = JSString.nonempty s.
Proof. reflexivity. Qed.

Lemma includes_string (s sub : string) :
  JS.includes (JString s : JSValue Num) sub = Some (JSString.includes s sub).
Proof. reflexivity. Qed.

Lemma ToString_string (s : string) :
  JS.ToString (JString s : JSValue Num) = Some s.
Proof. reflexivity. Qed.

Lemma render_string_session (st : State Num) (session : string) :
  __session st = JString session ->
  render st = Some (address st session, loading (props st)).
Proof.
  intros Hs. unfold render.
  rewrite (getIframeSrc_printed st session); [reflexivity|].
  rewrite Hs. reflexivity.
Qed.

(** With a string for a token, [update] throws exactly when the element
    has no render root. *)
Lemma update_string_session (st : State Num) (session : string) :
  __session st = JString session ->
  update st =
  if renderRoot st then Normal tt (rendered session st)
  else Thrown (set_isUpdatePending false st).
Proof.
  intros Hs. unfold update, bind, try_, modify, gets.
  rewrite (render_string_session st session Hs). simpl.
  destruct (renderRoot st); reflexivity.
Qed.

Opaque render _formatError JS.ToString JS.includes JS.get JS.truthy.

(** On a message that is accepted and whose error is a non-empty string,
    the handler is the resize block followed by [reported]. *)
Lemma handleMessageEvent_reported
  (event : MessageEvent Num) (st : State Num)
  (tag resizeHeight : JSValue Num) (message : string) :
  accepted event tag ->
  JS.get tag "resizeHeight" = Some resizeHeight ->
  JS.ToString resizeHeight <> None ->
  JS.get tag "error" = Some (JString message) ->
  JSString.nonempty message = true ->
  handleMessageEvent event st = reported message (resized resizeHeight st).
Proof.
  intros (Horigin & Hobject & Hget & Htag) Hresize Hprint Herror Hnonempty.
  unfold handleMessageEvent.
  rewrite Horigin, String.eqb_refl, Hobject, Hget.
  run. simpl. rewrite Htag, Hresize, Herror. simpl.
  rewrite truthy_string, Hnonempty, !includes_string, formatError_string,
    ToString_string.
  destruct (JS.ToString resizeHeight) as [px|] eqn:Hpx;
    [clear Hprint|congruence].
  unfold reported, resized, authentication_failure. rewrite Hpx.
  destruct (iframeRef st) as [frame|] eqn:Hframe;
    [destruct (JS.truthy resizeHeight)|]; simpl.
  all: rewrite ?Hframe; simpl.
  all: destruct (JSString.includes message "Bad credentials");
    [|destruct (JSString.includes message "Invalid state value")]; simpl.
  all: destruct (localStorage st !! GISCUS_SESSION_KEY); simpl.
  all: try match goal with
           | |- context [render ?s] =>
               rewrite (render_string_session s EmptyString eq_refl)
           end; simpl.
  all: destruct (renderRoot st); simpl.
  all: destruct (JSString.includes message "Discussion not found");
    reflexivity.
Qed.

Lemma resized_fields (v : JSValue Num) (st : State Num) :
  props (resized v st) = props st /\
  id (resized v st) = id st /\
  __session (resized v st) = __session st /\
  location (resized v st) = location st /\
  document (resized v st) = document st /\
  localStorage (resized v st) = localStorage st /\
  console (resized v st) = console st /\
  frame_src (resized v st) = frame_src st.
Proof.
  unfold resized, frame_src.
  destruct (iframeRef st) eqn:Hframe, (JS.truthy v), (JS.ToString v);
    simpl; rewrite ?Hframe; repeat split; reflexivity.
Qed.

Lemma resized_root (v : JSValue Num) (st : State Num) :
  renderRoot (resized v st) = renderRoot st /\
  isUpdatePending (resized v st) = isUpdatePending st /\
  hasUpdated (resized v st) = hasUpdated st.
Proof.
  unfold resized.
  destruct (iframeRef st), (JS.truthy v), (JS.ToString v);
    repeat split; reflexivity.
Qed.

(** C2. A message from the remote origin whose error text contains
    [Bad credentials] or [Invalid state value] (and whose [resizeHeight],
    whatever it is, prints as a string, as every number does). With a
    token in the store, the handler removes the token from the store,
    empties the active token, logs the warning and calls [update], after
    which no update is pending. On an element that has a render root the
    call does not throw and the element has rendered again: its frame,
    created if there was none, points at the address computed for the
    empty session, which reads [&session=&repo=] after the [origin]
    parameter. On an element without a render root, one that was
    constructed and never connected, [update] throws after store and
    token have been cleared, and the frame address is what it was. With
    no token in the store, the handler does not throw and nothing is
    cleared: store, active token, page address and frame address are what
    they were, and the handler only logs, the no-session error first. *)
Theorem handleMessageEvent_invalidation
  (event : MessageEvent Num) (st : State Num)
  (tag resizeHeight : JSValue Num) (message : string) :
  accepted event tag ->
  JS.get tag "resizeHeight" = Some resizeHeight ->
  JS.ToString resizeHeight <> None ->
  JS.get tag "error" = Some (JString message) ->
  authentication_failure message = true ->
  let result := handleMessageEvent event st in
  let st' := final result in
  (localStorage st !! GISCUS_SESSION_KEY <> None ->
   localStorage st' = delete GISCUS_SESSION_KEY (localStorage st) /\
   localStorage st' !! GISCUS_SESSION_KEY = None /\
   __session st' = JString "" /\
   console st' = console st ++ [cleared_warning message] /\
   isUpdatePending st' = false /\
   getIframeSrc st' = Some (address st EmptyString) /\
   (renderRoot st = true ->
    threw result = false /\
    frame_src st' = Some (address st EmptyString) /\
    exists rest,
      frame_src st' =
      Some (GISCUS_ORIGIN +:+ locale st +:+ "/widget" +:+
            "?origin=" +:+ Url.encode (origin_param st) +:+
            "&session=&repo=" +:+ rest)) /\
   (renderRoot st = false ->
    threw result = true /\
    frame_src st' = frame_src st)) /\
  (localStorage st !! GISCUS_SESSION_KEY = None ->
   threw result = false /\
   localStorage st' = localStorage st /\
   __session st' = __session st /\
   location st' = location st /\
   frame_src st' = frame_src st /\
   exists second,
     console st' = console st ++ [no_session_error message; second]).
Proof.
  intros Haccepted Hresize Hprint Herror Hauth result st'. subst st' result.
  rewrite (handleMessageEvent_reported event st tag resizeHeight message)
    by auto using authentication_failure_nonempty.
  destruct (resized_fields resizeHeight st)
    as (Hp & Hi & Hs & Hl & Hd & Hst & Hc & Hf).
  destruct (resized_root resizeHeight st) as (Hroot & _ & _).
  unfold reported. rewrite Hauth, Hst, Hroot.
  destruct (localStorage st !! GISCUS_SESSION_KEY) as [token|] eqn:Hstored.
  - split; [|congruence]. intros _.
    assert (Haddress :
      address (logged (cleared_warning message)
                 (invalidated (resized resizeHeight st))) EmptyString =
      address st EmptyString).
    { unfold address, locale, query, origin_param, getTerm, getNumber,
        _getOgMetaContent. simpl. rewrite Hp, Hi, Hl, Hd. reflexivity. }
    destruct (renderRoot st) eqn:Hrooted.
    + cbn -[address]. rewrite Hst, Hc.
      repeat apply conj; try reflexivity; try discriminate.
      * apply lookup_delete_eq.
      * rewrite <- Haddress.
        apply (getIframeSrc_printed
                 (rendered EmptyString
                    (logged (cleared_warning message)
                       (invalidated (resized resizeHeight st))))
                 EmptyString).
        reflexivity.
      * intros _. repeat apply conj; [reflexivity| |].
        -- unfold frame_src. cbn -[address]. rewrite <- Haddress.
           destruct (iframeRef (resized resizeHeight st)); reflexivity.
        -- eexists. unfold frame_src. cbn -[address].
           rewrite Haddress, address_written_out.
           destruct (iframeRef (resized resizeHeight st)); reflexivity.
    + cbn -[address]. rewrite Hst, Hc.
      repeat apply conj; try reflexivity; try discriminate.
      * apply lookup_delete_eq.
      * rewrite <- Haddress.
        apply (getIframeSrc_printed
                 (set_isUpdatePending false
                    (logged (cleared_warning message)
                       (invalidated (resized resizeHeight st))))
                 EmptyString).
        reflexivity.
      * intros _. split; [reflexivity|]. exact Hf.
  - split; [congruence|]. intros _.
    destruct (JSString.includes message "Discussion not found"); simpl;
      rewrite ?Hst, ?Hs, ?Hl, ?Hc; repeat apply conj;
      try assumption; try reflexivity.
    + eexists. rewrite <- app_assoc. reflexivity.
    + eexists. rewrite <- app_assoc. reflexivity.
Qed.

Ltac innermost :=
  match goal with
  | |- context [match ?x with _ => _ end] =>
      lazymatch x with
      | context [match _ with _ => _ end] => fail
      | _ => destruct x eqn:?
      end
  end.

Ltac branches := repeat (simpl; innermost).

(** C10, amended. An authentication failure arriving while the store
    holds no token: the handler logs the no-session error and goes on to
    the checks below it, leaving token and store as they were. When the
    text does not also contain [Discussion not found], the same error is
    logged a second time as the unrecoverable error and the handler runs
    to its end; when it does, the second entry is the discussion-not-found
    warning and the handler returns there. *)
Theorem handleMessageEvent_no_session
  (event : MessageEvent Num) (st : State Num)
  (tag resizeHeight : JSValue Num) (message : string) :
  accepted event tag ->
  JS.get tag "resizeHeight" = Some resizeHeight ->
  JS.ToString resizeHeight <> None ->
  JS.get tag "error" = Some (JString message) ->
  authentication_failure message = true ->
  localStorage st !! GISCUS_SESSION_KEY = None ->
  let result := handleMessageEvent event st in
  __session (final result) = __session st /\
  localStorage (final result) = localStorage st /\
  (JSString.includes message "Discussion not found" = false ->
   result =
   Normal tt (logged (unrecoverable_error message)
                (logged (no_session_error message)
                   (resized resizeHeight st))) /\
   console (final result) =
   console st ++ [no_session_error message; unrecoverable_error message]) /\
  (JSString.includes message "Discussion not found" = true ->
   result =
   Returned (logged (not_found_warning message)
               (logged (no_session_error message)
                  (resized resizeHeight st))) /\
   console (final result) =
   console st ++ [no_session_error message; not_found_warning message]).
Proof.
  intros Haccepted Hresize Hprint Herror Hauth Hstored result. subst result.
  rewrite (handleMessageEvent_reported event st tag resizeHeight message)
    by auto using authentication_failure_nonempty.
  destruct (resized_fields resizeHeight st)
    as (Hp & Hi & Hs & Hl & Hd & Hst & Hc & Hf).
  unfold reported. rewrite Hauth, Hst, Hstored.
  destruct (JSString.includes message "Discussion not found"); simpl;
    rewrite Hs, Hst, Hc, <- app_assoc; repeat split; discriminate.
Qed.

(** Whatever the message, the height is what it was or was set by the
    resize block. *)
Lemma handleMessageEvent_height (event : MessageEvent Num) (st : State Num) :
  let st' := final (handleMessageEvent event st) in
  height st' = height st \/
  exists tag resizeHeight text,
    accepted event tag /\
    JS.get tag "resizeHeight" = Some resizeHeight /\
    iframeRef st <> None /\
    JS.truthy resizeHeight = true /\
    JS.ToString resizeHeight = Some text /\
    height st' = text +:+ "px".
Proof.
  intros st'. subst st'. unfold height, accepted, tagged.
  run. unfold try_, pure, throw.
  destruct (String.eqb (origin event) GISCUS_ORIGIN) eqn:Horigin; simpl;
    [|left; reflexivity].
  apply String.eqb_eq in Horigin.
  destruct (JS.typeof_object (data event)) eqn:Hobject; simpl;
    [|left; reflexivity].
  destruct (JS.get (data event) "giscus") as [tag|] eqn:Hget; simpl;
    [|left; reflexivity].
  destruct (JS.truthy tag) eqn:Htag; simpl; [|left; reflexivity].
  destruct (iframeRef st) as [frame|] eqn:Hframe; simpl.
  2: { left. branches; simplify_eq; reflexivity. }
  destruct (JS.get tag "resizeHeight") as [resizeHeight|] eqn:Hresize; simpl;
    [|left; rewrite Hframe; reflexivity].
  destruct (JS.truthy resizeHeight) eqn:Htruthy; simpl.
  2: { left. branches; simplify_eq; reflexivity. }
  destruct (JS.ToString resizeHeight) as [text|] eqn:Htext; simpl;
    [|left; rewrite Hframe; reflexivity].
  right. exists tag, resizeHeight, text.
  repeat apply conj; try assumption; try reflexivity; try discriminate.
  rewrite Hframe. branches; simplify_eq; reflexivity.
Qed.

(** C9. A message from the remote origin that carries the tag. Without a
    frame, or with a falsy [resizeHeight] (zero, [NaN], the empty string,
    [false], [null], none at all), the height of the frame is what it
    was. With a frame and a truthy [resizeHeight] that prints as [text],
    the height is [text] followed by [px]. This holds however the rest of
    the handler ends. And for any message at all, the height changes only
    in the second way: the message is from the remote origin and tagged,
    there is a frame and [resizeHeight] is truthy. *)
Theorem handleMessageEvent_resize
  (event : MessageEvent Num) (st : State Num) :
  let st' := final (handleMessageEvent event st) in
  (forall tag resizeHeight,
      accepted event tag ->
      JS.get tag "resizeHeight" = Some resizeHeight ->
      (iframeRef st = None \/ JS.truthy resizeHeight = false ->
       height st' = height st) /\
      (forall text,
          iframeRef st <> None -> JS.truthy resizeHeight = true ->
          JS.ToString resizeHeight = Some text ->
          height st' = text +:+ "px")) /\
  (height st' <> height st ->
   exists tag resizeHeight text,
     accepted event tag /\
     JS.get tag "resizeHeight" = Some resizeHeight /\
     iframeRef st <> None /\
     JS.truthy resizeHeight = true /\
     JS.ToString resizeHeight = Some text /\
     height st' = text +:+ "px").
Proof.
  intros st'. subst st'. split.
  - intros tag resizeHeight (Horigin & Hobject & Hget & Htag) Hresize.
    unfold handleMessageEvent.
    rewrite Horigin, String.eqb_refl, Hobject, Hget.
    run. simpl. rewrite Htag. simpl.
    split.
    + intros Hnot. unfold height.
      destruct (iframeRef st) as [frame|] eqn:Hframe.
      * destruct Hnot as [Hnone|Hfalsy]; [discriminate|].
        rewrite Hresize. simpl.
        rewrite Hfalsy. branches; simplify_eq; reflexivity.
      * branches; simplify_eq; reflexivity.
    + intros text Hsome Htruthy Htext. unfold height.
      destruct (iframeRef st) as [frame|] eqn:Hframe; [|congruence].
      rewrite Hresize. simpl.
      rewrite Htruthy, Htext. simpl. rewrite Hframe.
      branches; simplify_eq; reflexivity.
  - intros Hchanged.
    destruct (handleMessageEvent_height event st) as [Hsame|Hset];
      [contradiction|exact Hset].
Qed.

(** The handler changes the address of the frame on one path only, the
    one that invalidates the session. *)
Lemma handleMessageEvent_frame_src
  (event : MessageEvent Num) (st : State Num) :
  let st' := final (handleMessageEvent event st) in
  frame_src st' <> frame_src st ->
  localStorage st !! GISCUS_SESSION_KEY <> None /\
  localStorage st' !! GISCUS_SESSION_KEY = None /\
  __session st' = JString "".
Proof.
  intros st'. subst st'. unfold frame_src. run. unfold try_, pure, throw.
  destruct (iframeRef st) as [frame|] eqn:Hframe.
  all: branches; simplify_eq; simpl; rewrite ?Hframe.
  all: try (intros Hne; exfalso; apply Hne; reflexivity).
  all: intros _; repeat split;
    [congruence | simpl; apply lookup_delete_eq].
Qed.

Lemma assign_props_updated (p : Props) (st : State Num) :
  hasUpdated st = true ->
  assign_props p st =
  sendMessage (setConfig_of (set_props p st)) (set_props p st).
Proof.
  intros Hupdated.
  unfold assign_props, requestUpdate, updateConfig, bind, gets, modify.
  simpl. rewrite Hupdated. reflexivity.
Qed.

(** C3. Once the element has rendered, assigning the configuration does
    not render again: the address of the frame, its height, the pending
    flag, the token, the store, the page address and the console are what
    they were, and the call does not throw. With a frame that has a
    window, one message is posted to that window, the [setConfig] envelope
    built from the new configuration, for the remote origin only. And the
    message handler changes the address of the frame on no other path than
    the one that invalidates the session. *)
Theorem requestUpdate_after_first_render (p : Props) (st : State Num) :
  hasUpdated st = true ->
  let result := assign_props p st in
  let st' := final result in
  threw result = false /\
  props st' = p /\
  frame_src st' = frame_src st /\
  height st' = height st /\
  isUpdatePending st' = isUpdatePending st /\
  __session st' = __session st /\
  localStorage st' = localStorage st /\
  location st' = location st /\
  console st' = console st /\
  (forall frame posted,
      iframeRef st = Some frame -> contentWindow frame = Some posted ->
      exists frame',
        iframeRef st' = Some frame' /\
        contentWindow frame' =
        Some (posted ++
              [ {| giscus := setConfig_of (set_props p st);
                   targetOrigin := GISCUS_ORIGIN |} ])) /\
  (forall event,
      let after := final (handleMessageEvent event st) in
      frame_src after <> frame_src st ->
      localStorage st !! GISCUS_SESSION_KEY <> None /\
      localStorage after !! GISCUS_SESSION_KEY = None /\
      __session after = JString "").
Proof.
  intros Hupdated result st'. subst st' result.
  rewrite (assign_props_updated p st Hupdated).
  repeat apply conj.
  11: intros event; apply (handleMessageEvent_frame_src event st).
  all: unfold frame_src, height, sendMessage, modify; simpl.
  all: destruct (iframeRef st) as [frame|] eqn:Hframe;
    [destruct (contentWindow frame) as [posted|] eqn:Hwindow|];
    simpl; rewrite ?Hframe; try reflexivity.
  all: intros frame0 posted0 Hf Hw; simplify_eq.
  eexists. split; reflexivity.
Qed.

(** *** The session *)

Lemma get_delete (name : string) (u : Url.URL) :
  Url.get name (Url.searchParams (Url.delete name u)) = None.
Proof.
  unfold Url.delete. simpl.
  induction (Url.searchParams u) as [|[k v] params IH]; [reflexivity|].
  simpl. destruct (String.eqb k name) eqn:Hk; simpl; [exact IH|].
  rewrite Hk. exact IH.
Qed.

(** Deleting a parameter leaves the pairs of every other name alone. *)
Lemma get_delete_other (name other : string) (u : Url.URL) :
  other <> name ->
  Url.get other (Url.searchParams (Url.delete name u)) =
  Url.get other (Url.searchParams u).
Proof.
  intros Hne. unfold Url.delete. simpl.
  induction (Url.searchParams u) as [|[k v] params IH]; [reflexivity|].
  simpl. destruct (String.eqb k name) eqn:Hk; simpl.
  - apply String.eqb_eq in Hk. subst k.
    destruct (String.eqb name other) eqn:Ho; [|exact IH].
    apply String.eqb_eq in Ho. congruence.
  - rewrite IH. reflexivity.
Qed.

(** C4, amended. When the first [giscus] parameter of the page address
    has a non-empty value, [setupSession] makes that value the active
    token, writes its JSON encoding to the store under [giscus-session],
    whatever the store held there, and takes every [giscus] parameter out
    of the page address, where the other parameters stay; nothing is
    logged and nothing thrown. *)
Theorem setupSession_url_seed (st : State Num) (token : string) :
  Url.get "giscus" (Url.searchParams (location st)) = Some token ->
  token <> EmptyString ->
  let result := setupSession JSON_parse st in
  let st' := final result in
  threw result = false /\
  __session st' = JString token /\
  localStorage st' =
  <[GISCUS_SESSION_KEY := Json.stringify token]> (localStorage st) /\
  localStorage st' !! GISCUS_SESSION_KEY = Some (Json.stringify token) /\
  location st' = Url.delete "giscus" (location st) /\
  Url.get "giscus" (Url.searchParams (location st')) = None /\
  (forall other,
      other <> "giscus" ->
      Url.get other (Url.searchParams (location st')) =
      Url.get other (Url.searchParams (location st))) /\
  console st' = console st.
Proof.
  intros Hget Hne result st'. subst st' result.
  run. simpl. rewrite Hget. simpl.
  destruct token as [|c token]; [congruence|]. simpl.
  repeat apply conj; try reflexivity.
  - apply lookup_insert_eq.
  - apply get_delete.
  - intros other Hother. apply get_delete_other. exact Hother.
Qed.

(** Without a session in the page address, a stored value that parses
    becomes the active token, or the empty string when it parses to a
    falsy value, and the store is left alone. *)
Lemma setupSession_stored_token
  (st : State Num) (raw : string) (v : JSValue Num) :
  or_empty (Url.get "giscus" (Url.searchParams (location st))) = EmptyString ->
  localStorage st !! GISCUS_SESSION_KEY = Some raw ->
  raw <> EmptyString ->
  JSON_parse raw = inl v ->
  setupSession JSON_parse st =
  Normal tt (set_session (if JS.truthy v then v else JString "") st).
Proof.
  intros Hurl Hstored Hne Hparse.
  run. simpl. rewrite Hurl, Hstored. simpl.
  destruct raw as [|c raw]; [congruence|]. simpl.
  rewrite Hparse. reflexivity.
Qed.

(** C7, amended. With no session in the page address and a non-empty
    stored value that [JSON.parse] rejects, [setupSession] ends normally
    with the active token empty, the key removed from the store and one
    warning on the console, which carries the message of the parser. *)
Theorem setupSession_decode_failure
  (st : State Num) (raw e_message : string) :
  or_empty (Url.get "giscus" (Url.searchParams (location st))) = EmptyString ->
  localStorage st !! GISCUS_SESSION_KEY = Some raw ->
  raw <> EmptyString ->
  JSON_parse raw = inr e_message ->
  let result := setupSession JSON_parse st in
  let st' := final result in
  threw result = false /\
  __session st' = JString "" /\
  localStorage st' = delete GISCUS_SESSION_KEY (localStorage st) /\
  localStorage st' !! GISCUS_SESSION_KEY = None /\
  location st' = location st /\
  console st' = console st ++ [cleared_warning e_message].
Proof.
  intros Hurl Hstored Hne Hparse result st'. subst st' result.
  run. simpl. rewrite Hurl, Hstored. simpl.
  destruct raw as [|c raw]; [congruence|]. simpl.
  rewrite Hparse. simpl. rewrite formatError_string. simpl.
  repeat split. apply lookup_delete_eq.
Qed.

(** *** What the handler leaves alone *)

(** Every run of the handler, whatever the message: the configuration,
    the page, the render root and [hasUpdated] stay; the store and the
    token change together or not at all; the console only grows, by two
    entries at most; nothing is posted to the frame; and the pending flag
    is left alone or reset, the latter only where the session key is
    removed. *)
Lemma handleMessageEvent_frame (event : MessageEvent Num) (st : State Num) :
  let st' := final (handleMessageEvent event st) in
  (props st' = props st /\ id st' = id st /\
   hasUpdated st' = hasUpdated st /\
   renderRoot st' = renderRoot st /\
   location st' = location st /\ document st' = document st) /\
  ((localStorage st' = localStorage st /\ __session st' = __session st) \/
   (localStorage st !! GISCUS_SESSION_KEY <> None /\
    localStorage st' = delete GISCUS_SESSION_KEY (localStorage st) /\
    __session st' = JString "")) /\
  (exists logs,
      console st' = console st ++ logs /\ (length logs <= 2)%nat) /\
  posted_of st' = posted_of st /\
  (isUpdatePending st' = isUpdatePending st \/
   (isUpdatePending st' = false /\
    localStorage st !! GISCUS_SESSION_KEY <> None /\
    localStorage st' !! GISCUS_SESSION_KEY = None)).
Proof.
  intros st'. assert (Hrun : st' = final (handleMessageEvent event st))
    by reflexivity.
  clearbody st'. revert Hrun.
  remember (posted_of st) as before eqn:Hbefore.
  unfold posted_of in Hbefore. revert Hbefore. run. unfold try_, pure, throw.
  destruct (iframeRef st) as [frame|] eqn:Hframe.
  all: branches; intros -> ->; simplify_eq; unfold posted_of; simpl;
    repeat match goal with
           | Heq : iframeRef _ = _ |- _ => rewrite Heq
           | Heq : contentWindow _ = _ |- _ => rewrite Heq
           end.
  all: repeat apply conj; try reflexivity.
  all: try (left; split; reflexivity).
  all: try (right; repeat apply conj; [congruence|reflexivity|reflexivity]).
  all: try (exists []; rewrite app_nil_r; split; [reflexivity|simpl; lia]).
  all: try (eexists [_]; split; [reflexivity|simpl; lia]).
  all: try (eexists [_; _]; split;
            [rewrite <- app_assoc; reflexivity|simpl; lia]).
  all: try congruence.
  all: try (left; reflexivity).
  all: right; repeat apply conj;
    [reflexivity|congruence|simpl; apply lookup_delete_eq].
Qed.

(** *** The other ways the handler ends *)

Lemma resized_idempotent (v : JSValue Num) (st : State Num) :
  resized v (resized v st) = resized v st.
Proof.
  unfold resized.
  destruct (iframeRef st) as [frame|] eqn:Hframe, (JS.truthy v) eqn:Htruthy,
    (JS.ToString v) as [text|] eqn:Htext;
    simpl; rewrite ?Hframe, ?Htruthy, ?Htext; reflexivity.
Qed.

(** On an accepted message, the handler up to the test of [error]. *)
Lemma handleMessageEvent_quiet
  (event : MessageEvent Num) (st : State Num)
  (tag resizeHeight error : JSValue Num) :
  accepted event tag ->
  JS.get tag "resizeHeight" = Some resizeHeight ->
  JS.ToString resizeHeight <> None ->
  JS.get tag "error" = Some error ->
  JS.truthy error = false ->
  handleMessageEvent event st = Returned (resized resizeHeight st).
Proof.
  intros (Horigin & Hobject & Hget & Htag) Hresize Hprint Herror Hfalsy.
  unfold handleMessageEvent.
  rewrite Horigin, String.eqb_refl, Hobject, Hget.
  run. simpl. rewrite Htag, Hresize, Herror. simpl. unfold resized.
  destruct (JS.ToString resizeHeight) as [px|] eqn:Hpx; [|congruence].
  destruct (iframeRef st) as [frame|] eqn:Hframe;
    [destruct (JS.truthy resizeHeight)|]; simpl;
    rewrite ?Hframe, Hfalsy; reflexivity.
Qed.

(** X1. A message of the remote without an error (none at all, or a falsy
    one) ends at the resize block: the handler returns, logs nothing and
    leaves token and store alone; and handling the same message a second
    time changes nothing more. *)
Theorem handleMessageEvent_without_error
  (event : MessageEvent Num) (st : State Num)
  (tag resizeHeight error : JSValue Num) :
  accepted event tag ->
  JS.get tag "resizeHeight" = Some resizeHeight ->
  JS.ToString resizeHeight <> None ->
  JS.get tag "error" = Some error ->
  JS.truthy error = false ->
  let st' := final (handleMessageEvent event st) in
  threw (handleMessageEvent event st) = false /\
  console st' = console st /\
  __session st' = __session st /\
  localStorage st' = localStorage st /\
  frame_src st' = frame_src st /\
  final (handleMessageEvent event st') = st'.
Proof.
  intros Haccepted Hresize Hprint Herror Hfalsy st'. subst st'.
  rewrite !(handleMessageEvent_quiet event _ tag resizeHeight error)
    by assumption.
  destruct (resized_fields resizeHeight st)
    as (Hp & Hi & Hs & Hl & Hd & Hst & Hc & Hf).
  simpl. rewrite resized_idempotent. repeat apply conj; auto.
Qed.

(** X2. An error text that reports no authentication failure: when it
    contains [Discussion not found], the handler logs one warning and
    returns; otherwise it logs one error, with the suggestion to report
    it, and runs to its end. Nothing else happens after the resize
    block: token, store and frame address are what they were. *)
Theorem handleMessageEvent_other_errors
  (event : MessageEvent Num) (st : State Num)
  (tag resizeHeight : JSValue Num) (message : string) :
  accepted event tag ->
  JS.get tag "resizeHeight" = Some resizeHeight ->
  JS.ToString resizeHeight <> None ->
  JS.get tag "error" = Some (JString message) ->
  message <> EmptyString ->
  authentication_failure message = false ->
  let result := handleMessageEvent event st in
  (JSString.includes message "Discussion not found" = true ->
   result =
   Returned (logged (not_found_warning message) (resized resizeHeight st))) /\
  (JSString.includes message "Discussion not found" = false ->
   result =
   Normal tt (logged (unrecoverable_error message)
                (resized resizeHeight st))) /\
  __session (final result) = __session st /\
  localStorage (final result) = localStorage st /\
  frame_src (final result) = frame_src st.
Proof.
  intros Haccepted Hresize Hprint Herror Hne Hauth result. subst result.
  assert (Hnonempty : JSString.nonempty message = true)
    by (destruct message; [congruence|reflexivity]).
  rewrite (handleMessageEvent_reported event st tag resizeHeight message)
    by assumption.
  destruct (resized_fields resizeHeight st)
    as (Hp & Hi & Hs & Hl & Hd & Hst & Hc & Hf).
  unfold reported. rewrite Hauth.
  destruct (JSString.includes message "Discussion not found"); simpl;
    repeat apply conj; auto; discriminate.
Qed.

(** X3. An error that is neither a string nor an array (a number, [true],
    an object): [message.includes] is not a function, and the handler
    ends by that [TypeError] right after the resize block, with nothing
    logged and token and store as they were. *)
Theorem handleMessageEvent_error_not_text
  (event : MessageEvent Num) (st : State Num)
  (tag resizeHeight error : JSValue Num) :
  accepted event tag ->
  JS.get tag "resizeHeight" = Some resizeHeight ->
  JS.ToString resizeHeight <> None ->
  JS.get tag "error" = Some error ->
  JS.truthy error = true ->
  JS.includes error "Bad credentials" = None ->
  handleMessageEvent event st = Thrown (resized resizeHeight st) /\
  console (resized resizeHeight st) = console st /\
  __session (resized resizeHeight st) = __session st /\
  localStorage (resized resizeHeight st) = localStorage st.
Proof.
  intros (Horigin & Hobject & Hget & Htag) Hresize Hprint Herror Htruthy Hnot.
  destruct (resized_fields resizeHeight st)
    as (Hp & Hi & Hs & Hl & Hd & Hst & Hc & Hf).
  repeat apply conj; auto.
  unfold handleMessageEvent.
  rewrite Horigin, String.eqb_refl, Hobject, Hget.
  run. simpl. rewrite Htag, Hresize, Herror. simpl. unfold resized.
  destruct (JS.ToString resizeHeight) as [px|] eqn:Hpx; [|congruence].
  destruct (iframeRef st) as [frame|] eqn:Hframe;
    [destruct (JS.truthy resizeHeight)|]; simpl;
    rewrite ?Hframe, Htruthy, Hnot; reflexivity.
Qed.

(** X4. Invalidation happens once. After a message has invalidated the
    session, the same message again finds no token: the handler logs the
    no-session error, and store, token and frame address stay as the
    first run left them; the element is not rendered a second time. *)
Theorem handleMessageEvent_invalidation_once
  (event : MessageEvent Num) (st : State Num)
  (tag resizeHeight : JSValue Num) (message : string) :
  accepted event tag ->
  JS.get tag "resizeHeight" = Some resizeHeight ->
  JS.ToString resizeHeight <> None ->
  JS.get tag "error" = Some (JString message) ->
  authentication_failure message = true ->
  localStorage st !! GISCUS_SESSION_KEY <> None ->
  let st1 := final (handleMessageEvent event st) in
  let st2 := final (handleMessageEvent event st1) in
  localStorage st2 = localStorage st1 /\
  __session st2 = __session st1 /\
  frame_src st2 = frame_src st1 /\
  exists second,
    console st2 =
    console st ++ [cleared_warning message; no_session_error message; second].
Proof.
  intros Haccepted Hresize Hprint Herror Hauth Hstored st1 st2.
  subst st2 st1.
  pose proof (authentication_failure_nonempty _ Hauth) as Hnonempty.
  destruct (resized_fields resizeHeight st)
    as (Hp & Hi & Hs & Hl & Hd & Hst & Hc & Hf).
  destruct (localStorage st !! GISCUS_SESSION_KEY) as [token|] eqn:Hsome;
    [clear Hstored|congruence].
  assert (Hfirst :
    exists st1,
      final (handleMessageEvent event st) = st1 /\
      localStorage st1 !! GISCUS_SESSION_KEY = None /\
      console st1 = console st ++ [cleared_warning message]).
  { rewrite (handleMessageEvent_reported event st tag resizeHeight message)
      by assumption.
    unfold reported. rewrite Hauth, Hst, Hsome.
    destruct (renderRoot (resized resizeHeight st));
      (eexists; split; [reflexivity|]); simpl; rewrite Hst, Hc;
      (split; [apply lookup_delete_eq|reflexivity]). }
  destruct Hfirst as (st1 & -> & Hgone & Hconsole).
  destruct (resized_fields resizeHeight st1)
    as (Hp1 & Hi1 & Hs1 & Hl1 & Hd1 & Hst1 & Hc1 & Hf1).
  rewrite (handleMessageEvent_reported event st1 tag resizeHeight message)
    by assumption.
  unfold reported. rewrite Hauth, Hst1, Hgone.
  destruct (JSString.includes message "Discussion not found");
    cbn [final logged localStorage __session console set_console frame_src
         iframeRef];
    rewrite ?Hst1, ?Hs1, ?Hc1, ?Hconsole, <- ?app_assoc;
    repeat apply conj; try reflexivity; try exact Hf1;
    eexists; reflexivity.
Qed.

(** X5. Whatever the message, the handler does not touch the
    configuration, the id, [hasUpdated], the render root, the page
    address or the document, and it posts nothing to the frame. The
    pending flag is left as it is on every path but one: where the
    handler removes the session key from the store and calls [update],
    the flag is reset. *)
Theorem handleMessageEvent_keeps_configuration
  (event : MessageEvent Num) (st : State Num) :
  let st' := final (handleMessageEvent event st) in
  props st' = props st /\ id st' = id st /\
  hasUpdated st' = hasUpdated st /\
  renderRoot st' = renderRoot st /\
  location st' = location st /\ document st' = document st /\
  posted_of st' = posted_of st /\
  (isUpdatePending st' = isUpdatePending st \/
   (isUpdatePending st' = false /\
    localStorage st !! GISCUS_SESSION_KEY <> None /\
    localStorage st' !! GISCUS_SESSION_KEY = None)).
Proof.
  destruct (handleMessageEvent_frame event st)
    as ((Hp & Hi & Hu & Hr & Hl & Hd) & _ & _ & Hposted & Hpending).
  repeat apply conj; assumption.
Qed.

(** X6. Whatever the message, the handler writes to the store in one way
    only, by removing the session key: every other key keeps its value.
    The active token is left as it is or emptied, and it is emptied
    exactly in the runs that remove the key, which held a value before. *)
Theorem handleMessageEvent_store
  (event : MessageEvent Num) (st : State Num) :
  let st' := final (handleMessageEvent event st) in
  (forall k, k <> GISCUS_SESSION_KEY ->
             localStorage st' !! k = localStorage st !! k) /\
  ((localStorage st' = localStorage st /\ __session st' = __session st) \/
   (localStorage st !! GISCUS_SESSION_KEY <> None /\
    localStorage st' !! GISCUS_SESSION_KEY = None /\
    __session st' = JString "")).
Proof.
  destruct (handleMessageEvent_frame event st)
    as (_ & [[Hsame Hsession]|(Hheld & Hdeleted & Hsession)] & _).
  - split; [intros k _; rewrite Hsame; reflexivity|].
    left. split; assumption.
  - split.
    + intros k Hk. rewrite Hdeleted. apply lookup_delete_ne. congruence.
    + right. repeat apply conj; try assumption.
      rewrite Hdeleted. apply lookup_delete_eq.
Qed.

(** X7. Whatever the message, the handler only appends to the console,
    and two entries at most. *)
Theorem handleMessageEvent_console
  (event : MessageEvent Num) (st : State Num) :
  exists logs,
    console (final (handleMessageEvent event st)) = console st ++ logs /\
    (length logs <= 2)%nat.
Proof.
  destruct (handleMessageEvent_frame event st) as (_ & _ & Hlogs & _).
  exact Hlogs.
Qed.

(** *** More on the session *)

Lemma delete_delete (name : string) (u : Url.URL) :
  Url.delete name (Url.delete name u) = Url.delete name u.
Proof.
  unfold Url.delete. simpl. f_equal.
  induction (Url.searchParams u) as [|[k v] params IH]; [reflexivity|].
  simpl. destruct (String.eqb k name) eqn:Hk; simpl; [exact IH|].
  rewrite Hk. simpl. rewrite IH. reflexivity.
Qed.

(** [setupSession] in closed form. *)
Lemma setupSession_cases (st : State Num) :
  setupSession JSON_parse st =
  match Url.get "giscus" (Url.searchParams (location st)) with
  | Some (String c token) =>
      Returned
        (set_location (Url.delete "giscus" (location st))
           (set_session (JString (String c token))
              (set_localStorage
                 (<[GISCUS_SESSION_KEY := Json.stringify (String c token)]>
                    (localStorage st)) st)))
  | _ =>
      match localStorage st !! GISCUS_SESSION_KEY with
      | Some (String c raw) =>
          match JSON_parse (String c raw) with
          | inl v =>
              Normal tt (set_session (if JS.truthy v then v else JString "") st)
          | inr e_message =>
              Normal tt (logged (cleared_warning e_message) (invalidated st))
          end
      | _ => Normal tt st
      end
  end.
Proof.
  run. simpl.
  destruct (Url.get "giscus" (Url.searchParams (location st)))
    as [[|c token]|]; simpl; try reflexivity.
  all: destruct (localStorage st !! GISCUS_SESSION_KEY) as [[|d raw]|];
    simpl; try reflexivity.
  all: destruct (JSON_parse (String d raw)); simpl;
    rewrite ?formatError_string; reflexivity.
Qed.

(** X8. [setupSession] writes to the console on one path only, the
    [catch] block: whenever the console has changed, the page address
    carried no session, the store held a non-empty value, the parser
    threw on that value, and the one new entry is the warning with the
    parser's message. *)
Theorem setupSession_warns_only_on_parse_failure (st : State Num) :
  let st' := final (setupSession JSON_parse st) in
  console st' = console st \/
  exists raw message,
    or_empty (Url.get "giscus" (Url.searchParams (location st)))
    = EmptyString /\
    localStorage st !! GISCUS_SESSION_KEY = Some raw /\
    raw <> EmptyString /\
    JSON_parse raw = inr message /\
    console st' = console st ++ [cleared_warning message].
Proof.
  intros st'. subst st'. rewrite setupSession_cases.
  destruct (Url.get "giscus" (Url.searchParams (location st)))
    as [[|c token]|] eqn:Hget; simpl; auto.
  all: destruct (localStorage st !! GISCUS_SESSION_KEY) as [[|d raw]|]
    eqn:Hstored; simpl; auto.
  all: destruct (JSON_parse (String d raw)) as [v|message] eqn:Hparse;
    simpl; auto.
  all: right; exists (String d raw), message;
    repeat apply conj; try reflexivity; try assumption; discriminate.
Qed.

(** X9. [setupSession] keeps its hands off the rest: the configuration,
    the id, the flags, the frame and the document stay; in the store
    every key but the session key keeps its value; and the page address
    keeps its scheme, host, path and fragment and every parameter that is
    not named [giscus]. *)
Theorem setupSession_leaves_alone (st : State Num) :
  let st' := final (setupSession JSON_parse st) in
  (props st' = props st /\ id st' = id st /\
   hasUpdated st' = hasUpdated st /\
   isUpdatePending st' = isUpdatePending st /\
   iframeRef st' = iframeRef st /\ document st' = document st) /\
  (forall k, k <> GISCUS_SESSION_KEY ->
             localStorage st' !! k = localStorage st !! k) /\
  (Url.protocol (location st') = Url.protocol (location st) /\
   Url.host (location st') = Url.host (location st) /\
   Url.pathname (location st') = Url.pathname (location st) /\
   Url.hash (location st') = Url.hash (location st)) /\
  (forall name, name <> "giscus" ->
                Url.get name (Url.searchParams (location st')) =
                Url.get name (Url.searchParams (location st))).
Proof.
  intros st'. subst st'. rewrite setupSession_cases.
  destruct (Url.get "giscus" (Url.searchParams (location st)))
    as [[|c token]|]; simpl.
  2: { repeat apply conj; try reflexivity.
       - intros k Hk. apply lookup_insert_ne. congruence.
       - intros name Hname. apply get_delete_other. exact Hname. }
  all: destruct (localStorage st !! GISCUS_SESSION_KEY) as [[|d raw]|];
    simpl; try (repeat apply conj; reflexivity).
  all: destruct (JSON_parse (String d raw)); simpl;
    repeat apply conj; try reflexivity.
  all: intros k Hk; apply lookup_delete_ne; congruence.
Qed.

(** X10. With nothing to read, [setupSession] does nothing: no session
    in the page address (no [giscus] parameter, or an empty first one)
    and no stored value (none, or the empty string) leave the whole state
    as it was, and the parser is not asked. *)
Theorem setupSession_nothing_to_read (st : State Num) :
  or_empty (Url.get "giscus" (Url.searchParams (location st))) = EmptyString ->
  or_empty (localStorage st !! GISCUS_SESSION_KEY) = EmptyString ->
  setupSession JSON_parse st = Normal tt st.
Proof.
  intros Hurl Hstored. rewrite setupSession_cases.
  destruct (Url.get "giscus" (Url.searchParams (location st)))
    as [[|c token]|]; simpl in Hurl; try discriminate.
  all: destruct (localStorage st !! GISCUS_SESSION_KEY) as [[|d raw]|];
    simpl in Hstored; try discriminate; reflexivity.
Qed.

(** X11. A session seeded from the page address is there on a later
    load. Let [st] be seeded with [token], and let any element start on
    the page and the store that this left behind: if the parser reads
    back what [JSON.stringify] wrote, its active token is [token] again,
    and store and page address are not touched this time. *)
Theorem setupSession_restores
  (st later : State Num) (token : string) :
  Url.get "giscus" (Url.searchParams (location st)) = Some token ->
  token <> EmptyString ->
  JSON_parse (Json.stringify token) = inl (JString token) ->
  location later = location (final (setupSession JSON_parse st)) ->
  localStorage later = localStorage (final (setupSession JSON_parse st)) ->
  let later' := final (setupSession JSON_parse later) in
  __session later' = JString token /\
  localStorage later' = localStorage later /\
  location later' = location later /\
  console later' = console later.
Proof.
  intros Hget Hne Hparse Hlocation Hstorage later'. subst later'.
  rewrite (setupSession_cases st), Hget in Hlocation, Hstorage.
  destruct token as [|c token]; [congruence|]. simpl in Hlocation, Hstorage.
  rewrite (setupSession_stored_token later
             (Json.stringify (String c token)) (JString (String c token))).
  - rewrite truthy_string. simpl. repeat apply conj; reflexivity.
  - rewrite Hlocation, get_delete. reflexivity.
  - rewrite Hstorage. apply lookup_insert_eq.
  - unfold Json.stringify. discriminate.
  - exact Hparse.
Qed.

(** X12. A stored value that parses to a falsy value ([null], [false],
    zero, the empty string) is not a session: the active token is the
    empty string, nothing is logged, and the value stays in the store. *)
Theorem setupSession_falsy_value
  (st : State Num) (raw : string) (v : JSValue Num) :
  or_empty (Url.get "giscus" (Url.searchParams (location st))) = EmptyString ->
  localStorage st !! GISCUS_SESSION_KEY = Some raw ->
  raw <> EmptyString ->
  JSON_parse raw = inl v ->
  JS.truthy v = false ->
  let st' := final (setupSession JSON_parse st) in
  __session st' = JString "" /\
  localStorage st' = localStorage st /\
  console st' = console st.
Proof.
  intros Hurl Hstored Hne Hparse Hfalsy st'. subst st'.
  rewrite (setupSession_stored_token st raw v) by assumption.
  rewrite Hfalsy. repeat apply conj; reflexivity.
Qed.

(** X13. From seeding to the first render: after [setupSession] has
    read the token from the page address, the address of the frame
    carries it in [session], and the page address it reports in [origin]
    has no [giscus] parameter. *)
Theorem getIframeSrc_after_seed (st : State Num) (token : string) :
  Url.get "giscus" (Url.searchParams (location st)) = Some token ->
  token <> EmptyString ->
  let st' := final (setupSession JSON_parse st) in
  getIframeSrc st' = Some (address st' token) /\
  Url.get "session" (query st' token) = Some token /\
  Url.get "origin" (query st' token) =
  Some (Url.toString (location st') +:+
        (if JSString.nonempty (id st) then "#" +:+ id st else EmptyString)) /\
  Url.get "giscus" (Url.searchParams (location st')) = None.
Proof.
  intros Hget Hne st'. subst st'.
  rewrite setupSession_cases, Hget.
  destruct token as [|c token]; [congruence|]. cbn [final].
  repeat apply conj.
  - apply getIframeSrc_printed. reflexivity.
  - reflexivity.
  - unfold query, origin_param. cbn [Url.get String.eqb Ascii.eqb Bool.eqb].
    cbn [location set_location id set_session set_localStorage].
    rewrite delete_delete. reflexivity.
  - apply get_delete.
Qed.

(** *** More on the term *)

(** X14. Term and number exclude each other. In [number] mode the term
    is empty and the number is the configured term; in every other mode
    the number is empty. So the two are never both set. *)
Theorem getTerm_getNumber_exclusive (st : State Num) :
  (mapping (props st) = Some "number" ->
   getTerm st = EmptyString /\ getNumber st = or_empty (term (props st))) /\
  (mapping (props st) <> Some "number" -> getNumber st = EmptyString) /\
  (getTerm st = EmptyString \/ getNumber st = EmptyString).
Proof.
  unfold getTerm, getNumber.
  destruct (mapping (props st)) as [m|].
  - destruct (String.eqb m "number") eqn:Hm.
    + apply String.eqb_eq in Hm. subst m. simpl.
      repeat apply conj; auto. intros Hno. congruence.
    + repeat apply conj; auto.
      intros Hyes. injection Hyes as ->. discriminate.
  - repeat apply conj; auto. discriminate.
Qed.

(** X15. The term does not look at the query or the fragment of the page
    address, nor at the token, the store or the frame: two states with
    the same mapping, term and document whose addresses agree on scheme,
    host and path have the same term and the same number. *)
Theorem getTerm_ignores_query (st1 st2 : State Num) :
  mapping (props st1) = mapping (props st2) ->
  term (props st1) = term (props st2) ->
  document st1 = document st2 ->
  Url.protocol (location st1) = Url.protocol (location st2) ->
  Url.host (location st1) = Url.host (location st2) ->
  Url.pathname (location st1) = Url.pathname (location st2) ->
  getTerm st1 = getTerm st2 /\ getNumber st1 = getNumber st2.
Proof.
  intros Hm Ht Hd Hp Hh Hpath.
  unfold getTerm, getNumber, _getOgMetaContent, Url.origin.
  rewrite Hm, Ht, Hd, Hp, Hh, Hpath. split; reflexivity.
Qed.

(** X16. In [pathname] mode, on a pathname of two characters or more,
    the term is the pathname without its first character and without a
    final part that is either nothing or a dot followed by word
    characters only. The term is empty exactly when that final part is
    everything after the first character, as on [/.well]. *)
Theorem getTerm_pathname_cut (st : State Num) :
  pathname_mode (mapping (props st)) = true ->
  (2 <= String.length (Url.pathname (location st)))%nat ->
  (exists rest,
      JSString.substring1 (Url.pathname (location st)) = getTerm st +:+ rest /\
      (rest = EmptyString \/ JSString.ext_at_head rest = true)) /\
  (getTerm st = EmptyString <->
   JSString.ext_at_head (JSString.substring1 (Url.pathname (location st)))
   = true).
Proof.
  intros Hmode Hlong. rewrite (getTerm_pathname_case st Hmode).
  destruct (Nat.ltb_spec (String.length (Url.pathname (location st))) 2);
    [lia|].
  split; [apply JSStringFacts.replace_ext_cut|].
  rewrite JSStringFacts.replace_ext_empty. split; [|right; assumption].
  intros [Hempty|Hhead]; [|exact Hhead].
  destruct (Url.pathname (location st)) as [|c [|d path]];
    simpl in Hlong, Hempty; try lia; discriminate.
Qed.

(** X17. [_getOgMetaContent] reads the first [<meta>] element, in
    document order, that has the property [og:] followed by the name or
    has the name itself, whichever of the two it is: the elements before
    it that match neither do not count. Without any such element the
    result is the empty string. *)
Theorem getOgMetaContent_first_match (property : string) (st : State Num) :
  (forallb (fun m => negb (meta_matches property m)) (metas (document st))
   = true ->
   _getOgMetaContent property st = EmptyString) /\
  (forall before m after,
      metas (document st) = before ++ m :: after ->
      forallb (fun m => negb (meta_matches property m)) before = true ->
      meta_matches property m = true ->
      _getOgMetaContent property st = content m).
Proof.
  unfold _getOgMetaContent. split.
  - induction (metas (document st)) as [|m l IH]; [reflexivity|].
    simpl. intros Hall. apply andb_true_iff in Hall as [Hm Hl].
    apply negb_true_iff in Hm. unfold meta_matches in Hm. rewrite Hm.
    exact (IH Hl).
  - intros before m after -> Hbefore Hm.
    induction before as [|b before IH]; simpl.
    + unfold meta_matches in Hm. rewrite Hm. reflexivity.
    + simpl in Hbefore. apply andb_true_iff in Hbefore as [Hb Hbefore].
      apply negb_true_iff in Hb. unfold meta_matches in Hb. rewrite Hb.
      exact (IH Hbefore).
Qed.

(** *** More on the address *)

(** X18. The values of the thirteen parameters cannot add a parameter
    to the address of the frame or end its query: whatever the
    configuration, the page and the token hold, what follows the
    [/widget?] that [getIframeSrc] writes has exactly thirteen [=] and
    twelve [&] and no [#], [?] or space. The language is not among them:
    it goes into the path as it is. So the whole address has one [?]
    more than [lang] has and as many [#] as [lang] has, and the query of
    the address is those thirteen parameters exactly when [lang] holds
    neither of the two characters. *)
Theorem getIframeSrc_query_shape (st : State Num) (session : string) :
  JS.ToString (__session st) = Some session ->
  exists a q,
    getIframeSrc st = Some a /\
    a = GISCUS_ORIGIN +:+ locale st +:+ "/widget?" +:+ q /\
    JSString.count "=" q = 13%nat /\
    JSString.count "&" q = 12%nat /\
    JSString.count "#" q = 0%nat /\
    JSString.count "?" q = 0%nat /\
    JSString.count " " q = 0%nat /\
    JSString.count "?" a = S (JSString.count "?" (lang (props st))) /\
    JSString.count "#" a = JSString.count "#" (lang (props st)).
Proof.
  intros Hsession.
  exists (address st session), (Url.serialize (query st session)).
  destruct (UrlFacts.serialize_counts (query st session))
    as (Ha & He & Hh & Hq & Hs).
  split; [apply getIframeSrc_printed; exact Hsession|].
  split; [reflexivity|].
  repeat apply conj; try assumption.
  - unfold address. rewrite !UrlFacts.count_append, Hq.
    unfold locale. destruct (lang (props st)); simpl; lia.
  - unfold address. rewrite !UrlFacts.count_append, Hh.
    unfold locale. destruct (lang (props st)); simpl; lia.
Qed.

(** X19. [getIframeSrc] throws exactly when the active token cannot be
    converted to a string. *)
Theorem getIframeSrc_throws_iff (st : State Num) :
  getIframeSrc st = None <-> JS.ToString (__session st) = None.
Proof.
  split.
  - intros Hnone. destruct (JS.ToString (__session st)) as [session|] eqn:Hs;
      [|reflexivity].
    rewrite (getIframeSrc_printed st session Hs) in Hnone. discriminate.
  - intros Hnone. unfold getIframeSrc, iframe_params.
    cbn [URLSearchParams]. rewrite ToString_string, Hnone. reflexivity.
Qed.

(** X20. The address of the frame does not depend on the [giscus]
    parameters of the page address: it is the same before and after
    they are taken out of it. *)
Theorem getIframeSrc_ignores_giscus (st : State Num) :
  getIframeSrc (set_location (Url.delete "giscus" (location st)) st) =
  getIframeSrc st.
Proof.
  unfold getIframeSrc, iframe_params, getTerm, getNumber, _getOgMetaContent,
    Url.origin.
  cbn [location set_location props id __session document].
  rewrite delete_delete. reflexivity.
Qed.

(** *** More on the outbound messages *)

(** X21. Every message the widget posts is addressed to the remote
    origin, never to a wildcard: if this holds of the messages posted so
    far, it holds after the configuration is assigned and after any
    message is handled. *)
Theorem posted_to_remote_only (st : State Num) :
  Forall (fun m => targetOrigin m = GISCUS_ORIGIN) (posted_of st) ->
  (forall p,
      Forall (fun m => targetOrigin m = GISCUS_ORIGIN)
             (posted_of (final (assign_props p st)))) /\
  (forall event,
      Forall (fun m => targetOrigin m = GISCUS_ORIGIN)
             (posted_of (final (handleMessageEvent event st)))).
Proof.
  intros Hinv. split.
  - intros p. destruct (hasUpdated st) eqn:Hupdated.
    + rewrite (assign_props_updated p st Hupdated).
      unfold sendMessage, modify, posted_of in *. simpl.
      destruct (iframeRef st) as [frame|] eqn:Hframe; simpl;
        rewrite ?Hframe; [|exact Hinv].
      destruct (contentWindow frame) as [posted|] eqn:Hwindow; simpl;
        rewrite ?Hframe, ?Hwindow; [|exact Hinv].
      apply Forall_app. split; [exact Hinv|].
      constructor; [reflexivity|constructor].
    + unfold assign_props. run. simpl. rewrite Hupdated. exact Hinv.
  - intros event.
    destruct (handleMessageEvent_frame event st)
      as (_ & _ & _ & Hposted & _).
    rewrite Hposted. exact Hinv.
Qed.

(** X22. When an assignment of the configuration sends nothing. Before
    the first render it is handed to [LitElement] and [requestUpdate]
    returns at once. After it, without a frame or with a frame that has
    no window, the message is dropped without a trace: the assignment
    only stores the configuration. *)
Theorem assign_props_sends_nothing (p : Props) (st : State Num) :
  (hasUpdated st = false ->
   assign_props p st = Returned (set_isUpdatePending true (set_props p st))) /\
  (hasUpdated st = true ->
   (iframeRef st = None \/
    exists frame, iframeRef st = Some frame /\ contentWindow frame = None) ->
   assign_props p st = Normal tt (set_props p st)).
Proof.
  split.
  - intros Hfresh. unfold assign_props. run. simpl.
    rewrite Hfresh. reflexivity.
  - intros Hupdated Hnone.
    rewrite (assign_props_updated p st Hupdated).
    unfold sendMessage, modify. simpl.
    destruct Hnone as [Hframe|(frame & Hframe & Hwindow)];
      rewrite Hframe; [reflexivity|]. rewrite Hwindow. reflexivity.
Qed.

(** X23. Assignments are not compared with what was sent before. After
    the first render, on a frame with a window, assigning the same
    configuration twice posts the same envelope twice. *)
Theorem assign_props_twice
  (p : Props) (st : State Num) (frame : Iframe Num)
  (posted : list (Posted Num)) :
  hasUpdated st = true ->
  iframeRef st = Some frame ->
  contentWindow frame = Some posted ->
  posted_of (final (assign_props p (final (assign_props p st)))) =
  posted ++
  [ {| giscus := setConfig_of (set_props p st);
       targetOrigin := GISCUS_ORIGIN |};
    {| giscus := setConfig_of (set_props p st);
       targetOrigin := GISCUS_ORIGIN |} ].
Proof.
  intros Hupdated Hframe Hwindow.
  assert (Hfirst :
    final (assign_props p st) =
    set_iframeRef
      (Some {| src := src frame;
               loading_attr := loading_attr frame;
               style_height := style_height frame;
               contentWindow :=
                 Some (posted ++
                       [ {| giscus := setConfig_of (set_props p st);
                            targetOrigin := GISCUS_ORIGIN |} ]) |})
      (set_props p st)).
  { rewrite (assign_props_updated p st Hupdated).
    unfold sendMessage, modify. simpl. rewrite Hframe, Hwindow.
    reflexivity. }
  rewrite Hfirst, assign_props_updated by exact Hupdated.
  unfold sendMessage, modify, posted_of. simpl.
  rewrite <- app_assoc. reflexivity.
Qed.

(** *** The listener over the life of the element *)

Lemma steps_app (a b : list (Step Num)) (h : Host Num) :
  run_steps (a ++ b) h = run_steps b (run_steps a h).
Proof. apply fold_left_app. Qed.

Lemma steps_deaf (trace : list (Step Num)) (h : Host Num) :
  listening h = false ->
  listening (run_steps trace h) = false /\
  run_steps trace h =
  run_steps (List.filter (fun s => negb (is_message s)) trace) h.
Proof.
  revert h. induction trace as [|s trace IH]; intros h Hdeaf.
  - split; [exact Hdeaf|reflexivity].
  - destruct s as [| |event|p].
    + apply (IH (connectedCallback LitElement_connectedCallback h)).
      exact Hdeaf.
    + apply (IH (disconnectedCallback LitElement_disconnectedCallback h)).
      reflexivity.
    + change (run_steps (Message event :: trace) h)
        with (run_steps trace (dispatch event h)).
      unfold dispatch. rewrite Hdeaf. apply (IH h Hdeaf).
    + apply (IH {| element := final (assign_props p (element h));
                   listening := listening h |}).
      exact Hdeaf.
Qed.

(** X24. After [disconnectedCallback] the element does not hear the
    frame any more, and [connectedCallback] does not give it its ears
    back: in any course of events, the messages that arrive after the
    first disconnection are without effect, however often the element
    is connected again. *)
Theorem messages_after_disconnection
  (before after : list (Step Num)) (h : Host Num) :
  run_steps (before ++ Disconnect :: after) h =
  run_steps (before ++ Disconnect ::
             List.filter (fun s => negb (is_message s)) after) h.
Proof.
  rewrite !steps_app.
  change (run_steps (Disconnect :: after) (run_steps before h))
    with (run_steps after
            (disconnectedCallback LitElement_disconnectedCallback
               (run_steps before h))).
  change (run_steps (Disconnect :: List.filter _ after) (run_steps before h))
    with (run_steps (List.filter (fun s => negb (is_message s)) after)
            (disconnectedCallback LitElement_disconnectedCallback
               (run_steps before h))).
  apply steps_deaf. reflexivity.
Qed.

(** X25. Nothing in the life of the element registers the listener
    again: a host is listening after a course of events exactly when it
    was listening before and [disconnectedCallback] did not run in it.
    So from the moment the constructor has registered the listener, the
    element goes on listening exactly until [disconnectedCallback] runs
    for the first time. *)
Theorem listening_until_disconnected
  (trace : list (Step Num)) (h : Host Num) :
  listening (run_steps trace h) = true <->
  listening h = true /\ ~ In Disconnect trace.
Proof.
  revert h. induction trace as [|s trace IH]; intros h.
  - simpl. tauto.
  - change (run_steps (s :: trace) h)
      with (run_steps trace
              (step LitElement_connectedCallback
                 LitElement_disconnectedCallback h s)).
    rewrite IH. destruct s as [| |event|p]; simpl.
    + split; intros [Hl Hn]; (split; [exact Hl|]).
      * intros [Heq|Hin]; [discriminate|contradiction].
      * intros Hin. apply Hn. right. exact Hin.
    + split; [intros [Hl _]; discriminate|].
      intros [_ Hn]. exfalso. apply Hn. left. reflexivity.
    + unfold dispatch. destruct (listening h) eqn:Hheard; simpl;
        rewrite ?Hheard.
      * split; intros [Hl Hn]; (split; [reflexivity|]).
        -- intros [Heq|Hin]; [discriminate|contradiction].
        -- intros Hin. apply Hn. right. exact Hin.
      * split; intros [Hl Hn]; simpl in Hl; congruence.
    + split; intros [Hl Hn]; (split; [exact Hl|]).
      * intros [Heq|Hin]; [discriminate|contradiction].
      * intros Hin. apply Hn. right. exact Hin.
Qed.

(** X26. After the first render a change of [loading] reaches nobody.
    The [setConfig] message has no such field and the element is not
    rendered again: assigning a configuration with another [loading]
    posts what assigning the configuration itself posts, and the frame
    keeps its address and its [loading] attribute. *)
Theorem assign_props_loading
  (p : Props) (value : string) (st : State Num) :
  hasUpdated st = true ->
  let st1 := final (assign_props p st) in
  let st2 := final (assign_props (with_loading value p) st) in
  posted_of st2 = posted_of st1 /\
  frame_src st2 = frame_src st /\
  option_map loading_attr (iframeRef st2) =
  option_map loading_attr (iframeRef st).
Proof.
  intros Hupdated st1 st2. subst st1 st2.
  rewrite !assign_props_updated by exact Hupdated.
  unfold sendMessage, modify, final, posted_of, frame_src. simpl.
  destruct (iframeRef st) as [frame|] eqn:Hframe; simpl;
    rewrite ?Hframe; simpl; [|auto].
  destruct (contentWindow frame) as [posted|] eqn:Hwindow; simpl;
    rewrite ?Hframe, ?Hwindow; simpl; auto.
Qed.

End Verification.

Transparent Giscus.render Giscus._formatError.
Transparent JS.ToString JS.includes JS.get JS.truthy.

(** ** The statements at work on concrete pages *)

Section Concrete.
Import Giscus Reference.

(** C1. A page at [https://example.com/posts/a.html?giscus=XYZ] in [url]
    mode: [getTerm] gives the origin of the site, [https://example.com],
    not the address of the page without its session parameter,
    [https://example.com/posts/a.html]. *)
Theorem getTerm_url_on_a_post :
  let st := fresh (with_mapping "url" default_props)
                  (page "/posts/a.html" [("giscus", "XYZ")]) ∅ in
  getTerm st = "https://example.com" /\
  Url.toString (Url.delete "giscus" (location st)) =
  "https://example.com/posts/a.html" /\
  getTerm st <> Url.toString (Url.delete "giscus" (location st)).
Proof.
  repeat split. vm_compute. discriminate.
Qed.

Lemma getTerm_deterministic_pathname_witness :
  getTerm (fresh default_props (page "/posts/a.html" []) ∅) =
  getTerm (attached default_props (page "/posts/a.html" [])
             (stored "x") "XYZ") /\
  getTerm (fresh default_props (page "/posts/a.html" []) ∅) = "posts/a" /\
  getTerm (fresh (with_mapping "path" default_props) (page "/" []) ∅) =
  "index" /\
  getTerm (fresh default_props (page "/posts/a" []) ∅) = "posts/a" /\
  getTerm (fresh default_props (page "/dir.v2/" []) ∅) = "dir.v2/".
Proof.
  destruct (@getTerm_deterministic_pathname (option Z)) as [Hsame Hpath].
  repeat apply conj.
  - apply Hsame; reflexivity.
  - apply (proj1 (proj2 (Hpath (fresh default_props
                                  (page "/posts/a.html" []) ∅) eq_refl))
             "/"%char "posts/a" "html");
      [reflexivity | discriminate | reflexivity].
  - apply (proj1 (Hpath (fresh (with_mapping "path" default_props)
                           (page "/" []) ∅) eq_refl)).
    vm_compute. lia.
  - destruct (Hpath (fresh default_props (page "/posts/a" []) ∅) eq_refl)
      as (_ & _ & _ & Hcut & _).
    destruct Hcut as (rest & Hsplit & [->|Hext]); [vm_compute; lia| |].
    + rewrite JSStringFacts.append_empty_r in Hsplit. symmetry.
      exact Hsplit.
    + reflexivity.
  - destruct (Hpath (fresh default_props (page "/dir.v2/" []) ∅) eq_refl)
      as (_ & _ & _ & _ & _ & _ & _ & Hdir).
    apply Hdir. reflexivity.
Defined.

Lemma getIframeSrc_address_witness :
  JS.ToString (__session (fresh dark_french
                            (page "/posts/a.html" [("giscus", "XYZ")]) ∅))
  = Some EmptyString /\
  getIframeSrc (fresh dark_french
                  (page "/posts/a.html" [("giscus", "XYZ")]) ∅) =
  Some ("https://giscus.app/fr/widget" +:+
        "?origin=https%3A%2F%2Fexample.com%2Fposts%2Fa.html" +:+
        "&session=&repo=a%2Fb&repoId=&category=&categoryId=" +:+
        "&term=posts%2Fa&number=&reactionsEnabled=1&emitMetadata=0" +:+
        "&inputPosition=bottom&theme=dark&description=") /\
  Url.decode "https%3A%2F%2Fexample.com%2Fposts%2Fa.html" =
  "https://example.com/posts/a.html".
Proof.
  split; [reflexivity|].
  destruct (getIframeSrc_address
              (fresh dark_french
                 (page "/posts/a.html" [("giscus", "XYZ")]) ∅)
              EmptyString eq_refl)
    as (_ & _ & _ & Hencoding & _ & _ & _ & _ & Hexample).
  split.
  - apply Hexample; reflexivity.
  - exact (proj1 (Hencoding "https://example.com/posts/a.html")).
Defined.

Lemma handleMessageEvent_ignores_witness :
  origin (foreign JNull) <> GISCUS_ORIGIN /\
  final (handleMessageEvent (foreign JNull)
           (attached default_props (page "/" []) (stored "x") "XYZ")) =
  attached default_props (page "/" []) (stored "x") "XYZ".
Proof.
  split; [discriminate|].
  apply (handleMessageEvent_ignores (foreign JNull)).
  left. discriminate.
Defined.

Lemma handleMessageEvent_resize_witness :
  accepted (status [("resizeHeight", JNumber (Some 0%Z))])
           (JObject [("resizeHeight", JNumber (Some 0%Z))]) /\
  height (final (handleMessageEvent
                   (status [("resizeHeight", JNumber (Some 0%Z))])
                   (attached default_props (page "/" []) ∅ ""))) =
  EmptyString /\
  height (final (handleMessageEvent
                   (status [("resizeHeight", JNumber (Some 320%Z))])
                   (attached default_props (page "/" []) ∅ ""))) =
  "320px" /\
  exists tag resizeHeight,
    accepted (status [("resizeHeight", JNumber (Some 320%Z))]) tag /\
    JS.get tag "resizeHeight" = Some resizeHeight /\
    JS.truthy resizeHeight = true.
Proof.
  assert (Hzero : accepted (status [("resizeHeight", JNumber (Some 0%Z))])
                    (JObject [("resizeHeight", JNumber (Some 0%Z))]))
    by (repeat split).
  assert (Hpixels :
            accepted (status [("resizeHeight", JNumber (Some 320%Z))])
              (JObject [("resizeHeight", JNumber (Some 320%Z))]))
    by (repeat split).
  split; [exact Hzero|split; [|split]].
  - apply (proj1 (proj1 (handleMessageEvent_resize
                           (status [("resizeHeight", JNumber (Some 0%Z))])
                           (attached default_props (page "/" []) ∅ ""))
                    _ (JNumber (Some 0%Z)) Hzero eq_refl)).
    right. reflexivity.
  - apply (proj2 (proj1 (handleMessageEvent_resize
                           (status [("resizeHeight", JNumber (Some 320%Z))])
                           (attached default_props (page "/" []) ∅ ""))
                    _ (JNumber (Some 320%Z)) Hpixels eq_refl) "320");
      [discriminate | reflexivity | reflexivity].
  - destruct (proj2 (handleMessageEvent_resize
                       (status [("resizeHeight", JNumber (Some 320%Z))])
                       (attached default_props (page "/" []) ∅ "")))
      as (tag & resizeHeight & text & Ha & Hr & _ & Ht & _).
    + vm_compute. discriminate.
    + exists tag, resizeHeight. exact (conj Ha (conj Hr Ht)).
Defined.

Lemma handleMessageEvent_invalidation_witness :
  authentication_failure "Bad credentials" = true /\
  (__session (final (handleMessageEvent
                       (status [("error", JString "Bad credentials")])
                       (attached default_props (page "/" [])
                          (stored (Json.stringify "XYZ")) "XYZ"))) =
   JString "" /\
   localStorage (final (handleMessageEvent
                          (status [("error", JString "Bad credentials")])
                          (attached default_props (page "/" [])
                             (stored (Json.stringify "XYZ")) "XYZ")))
     !! GISCUS_SESSION_KEY = None /\
   frame_src (final (handleMessageEvent
                       (status [("error", JString "Bad credentials")])
                       (attached default_props (page "/" [])
                          (stored (Json.stringify "XYZ")) "XYZ"))) =
   Some (address (attached default_props (page "/" [])
                    (stored (Json.stringify "XYZ")) "XYZ") EmptyString)) /\
  (threw (handleMessageEvent
            (status [("error", JString "Bad credentials")])
            (element (constructor JSON_parse
                        (fresh default_props (page "/" [])
                           (stored (Json.stringify "XYZ")))))) = true /\
   __session (final (handleMessageEvent
                       (status [("error", JString "Bad credentials")])
                       (element (constructor JSON_parse
                                   (fresh default_props (page "/" [])
                                      (stored (Json.stringify "XYZ")))))))
   = JString "").
Proof.
  split; [reflexivity|].
  assert (Haccepted : accepted (status [("error", JString "Bad credentials")])
                        (JObject [("error", JString "Bad credentials")]))
    by (repeat split).
  split.
  - pose proof (handleMessageEvent_invalidation
                  (status [("error", JString "Bad credentials")])
                  (attached default_props (page "/" [])
                     (stored (Json.stringify "XYZ")) "XYZ")
                  (JObject [("error", JString "Bad credentials")])
                  JUndefined "Bad credentials"
                  Haccepted eq_refl ltac:(discriminate) eq_refl eq_refl)
      as [Hstored _].
    destruct Hstored as (_ & Hgone & Hsession & _ & _ & _ & Hrooted & _);
      [vm_compute; discriminate|].
    destruct (Hrooted eq_refl) as (_ & Hframe & _).
    repeat apply conj; assumption.
  - pose proof (handleMessageEvent_invalidation
                  (status [("error", JString "Bad credentials")])
                  (element (constructor JSON_parse
                              (fresh default_props (page "/" [])
                                 (stored (Json.stringify "XYZ")))))
                  (JObject [("error", JString "Bad credentials")])
                  JUndefined "Bad credentials"
                  Haccepted eq_refl ltac:(discriminate) eq_refl eq_refl)
      as [Hstored _].
    destruct Hstored as (_ & _ & Hsession & _ & _ & _ & _ & Hrootless);
      [vm_compute; discriminate|].
    split; [exact (proj1 (Hrootless eq_refl))|exact Hsession].
Defined.

Lemma requestUpdate_after_first_render_witness :
  hasUpdated (attached default_props (page "/" []) ∅ "") = true /\
  frame_src (final (assign_props (with_mapping "title" default_props)
                      (attached default_props (page "/" []) ∅ ""))) =
  frame_src (attached default_props (page "/" []) ∅ "").
Proof.
  split; [reflexivity|].
  apply (requestUpdate_after_first_render
           (with_mapping "title" default_props)
           (attached default_props (page "/" []) ∅ "")).
  reflexivity.
Defined.

Lemma setupSession_url_seed_witness :
  Url.get "giscus"
    (Url.searchParams
       (location (fresh default_props (page "/" [("giscus", "XYZ")])
                    (stored (Json.stringify "old"))))) = Some "XYZ" /\
  __session (final (setupSession JSON_parse
                      (fresh default_props (page "/" [("giscus", "XYZ")])
                         (stored (Json.stringify "old"))))) =
  JString "XYZ".
Proof.
  split; [reflexivity|].
  apply (setupSession_url_seed JSON_parse
           (fresh default_props (page "/" [("giscus", "XYZ")])
              (stored (Json.stringify "old"))) "XYZ");
    [reflexivity | discriminate].
Defined.

(** C4 as it is stated fails on the page address [/?giscus=], whose
    parameter is there with an empty value: the store keeps the token it
    held, which becomes the active token, and the parameter stays in the
    address. *)
Lemma setupSession_empty_parameter :
  let st := fresh default_props (page "/" [("giscus", "")])
                  (stored (Json.stringify "old")) in
  let st' := final (setupSession JSON_parse st) in
  Url.get "giscus" (Url.searchParams (location st)) = Some EmptyString /\
  __session st' <> JString "" /\
  localStorage st' !! GISCUS_SESSION_KEY <> Some (Json.stringify "") /\
  Url.get "giscus" (Url.searchParams (location st')) <> None.
Proof.
  vm_compute. repeat split; discriminate.
Qed.

Lemma setupSession_decode_failure_witness :
  JSON_parse "not json" = inr "Unexpected token in JSON" /\
  __session (final (setupSession JSON_parse
                      (fresh default_props (page "/" [])
                         (stored "not json")))) = JString "" /\
  localStorage (final (setupSession JSON_parse
                         (fresh default_props (page "/" [])
                            (stored "not json"))))
    !! GISCUS_SESSION_KEY = None.
Proof.
  split; [reflexivity|].
  pose proof (setupSession_decode_failure JSON_parse
                (fresh default_props (page "/" []) (stored "not json"))
                "not json" "Unexpected token in JSON"
                eq_refl eq_refl ltac:(discriminate) eq_refl)
    as (_ & Hsession & _ & Hgone & _).
  split; assumption.
Defined.

(** C7 as it is stated fails on the stored value that is the empty
    string: it is not JSON, and [setupSession] leaves it in the store and
    logs nothing. *)
Lemma setupSession_empty_stored_value :
  let st := fresh default_props (page "/" []) (stored "") in
  let st' := final (setupSession JSON_parse st) in
  JSON_parse "" = inr "Unexpected token in JSON" /\
  localStorage st' !! GISCUS_SESSION_KEY = Some EmptyString /\
  console st' = [].
Proof.
  vm_compute. repeat split.
Qed.

Lemma handleMessageEvent_no_session_witness :
  localStorage (attached default_props (page "/" []) ∅ "")
    !! GISCUS_SESSION_KEY = None /\
  console (final (handleMessageEvent
                    (status [("error", JString "Bad credentials")])
                    (attached default_props (page "/" []) ∅ ""))) =
  [no_session_error "Bad credentials"; unrecoverable_error "Bad credentials"].
Proof.
  split; [reflexivity|].
  assert (Haccepted : accepted (status [("error", JString "Bad credentials")])
                        (JObject [("error", JString "Bad credentials")]))
    by (repeat split).
  pose proof (handleMessageEvent_no_session
                (status [("error", JString "Bad credentials")])
                (attached default_props (page "/" []) ∅ "")
                (JObject [("error", JString "Bad credentials")])
                JUndefined "Bad credentials"
                Haccepted eq_refl ltac:(discriminate) eq_refl eq_refl eq_refl)
    as (_ & _ & Hplain & _).
  exact (proj2 (Hplain eq_refl)).
Defined.

(** C10 as it is stated fails on an error text that contains both
    [Bad credentials] and [Discussion not found]: with no token in the
    store, the second entry logged is the discussion-not-found warning,
    and the unrecoverable error is not logged at all. *)
Lemma handleMessageEvent_both_texts :
  let message := "Bad credentials: Discussion not found" in
  let st' := final (handleMessageEvent
                      (status [("error", JString message)])
                      (attached default_props (page "/" []) ∅ "")) in
  authentication_failure message = true /\
  console st' = [no_session_error message; not_found_warning message] /\
  ~ In (unrecoverable_error message) (console st').
Proof.
  vm_compute. repeat split.
  intros [Hfirst|[Hsecond|[]]]; discriminate.
Qed.

(** The address for the configuration [{repo: "a/b", theme: "dark",
    lang: "fr"}] with no session, on the page [https://example.com/]. *)
Example getIframeSrc_dark_french :
  getIframeSrc (fresh dark_french (page "/" []) ∅) =
  Some ("https://giscus.app/fr/widget" +:+
        "?origin=https%3A%2F%2Fexample.com%2F&session=&repo=a%2Fb" +:+
        "&repoId=&category=&categoryId=&term=index&number=" +:+
        "&reactionsEnabled=1&emitMetadata=0&inputPosition=bottom" +:+
        "&theme=dark&description=").
Proof. reflexivity. Qed.

(** The token [XYZ] as the store holds it: the three letters between two
    quotation marks. *)
Example stringify_XYZ :
  Json.stringify "XYZ" =
  String (ascii_of_nat 34) ("XYZ" +:+ String (ascii_of_nat 34) EmptyString).
Proof. reflexivity. Qed.

(** A stored token is read back by the next page load. *)
Example setupSession_reads_back :
  __session (final (setupSession JSON_parse
                      (fresh default_props (page "/" [])
                         (stored (Json.stringify "XYZ"))))) =
  JString "XYZ".
Proof. reflexivity. Qed.

(** ** Instances of the further properties *)

Lemma handleMessageEvent_without_error_witness :
  accepted (status [("resizeHeight", JNumber (Some 120%Z))])
    (JObject [("resizeHeight", JNumber (Some 120%Z))]) /\
  console (final (handleMessageEvent
                    (status [("resizeHeight", JNumber (Some 120%Z))])
                    (attached default_props (page "/" []) ∅ ""))) = [] /\
  final (handleMessageEvent
           (status [("resizeHeight", JNumber (Some 120%Z))])
           (final (handleMessageEvent
                     (status [("resizeHeight", JNumber (Some 120%Z))])
                     (attached default_props (page "/" []) ∅ "")))) =
  final (handleMessageEvent
           (status [("resizeHeight", JNumber (Some 120%Z))])
           (attached default_props (page "/" []) ∅ "")).
Proof.
  assert (Haccepted :
            accepted (status [("resizeHeight", JNumber (Some 120%Z))])
              (JObject [("resizeHeight", JNumber (Some 120%Z))]))
    by (repeat split).
  split; [exact Haccepted|].
  pose proof (handleMessageEvent_without_error
                (status [("resizeHeight", JNumber (Some 120%Z))])
                (attached default_props (page "/" []) ∅ "")
                (JObject [("resizeHeight", JNumber (Some 120%Z))])
                (JNumber (Some 120%Z)) JUndefined
                Haccepted eq_refl ltac:(discriminate) eq_refl eq_refl)
    as (_ & Hconsole & _ & _ & _ & Hagain).
  split; [exact Hconsole|exact Hagain].
Defined.

Lemma handleMessageEvent_other_errors_witness :
  authentication_failure "Discussion not found" = false /\
  handleMessageEvent (status [("error", JString "Discussion not found")])
    (attached default_props (page "/" []) ∅ "") =
  Returned (logged (not_found_warning "Discussion not found")
              (resized JUndefined
                 (attached default_props (page "/" []) ∅ ""))).
Proof.
  split; [reflexivity|].
  assert (Haccepted :
            accepted (status [("error", JString "Discussion not found")])
              (JObject [("error", JString "Discussion not found")]))
    by (repeat split).
  pose proof (handleMessageEvent_other_errors
                (status [("error", JString "Discussion not found")])
                (attached default_props (page "/" []) ∅ "")
                (JObject [("error", JString "Discussion not found")])
                JUndefined "Discussion not found"
                Haccepted eq_refl ltac:(discriminate) eq_refl
                ltac:(discriminate) eq_refl)
    as (Hfound & _).
  exact (Hfound eq_refl).
Defined.

Lemma handleMessageEvent_error_not_text_witness :
  JS.includes (JBool true : Value) "Bad credentials" = None /\
  handleMessageEvent (status [("error", JBool true)])
    (attached default_props (page "/" []) (stored "x") "XYZ") =
  Thrown (resized JUndefined
            (attached default_props (page "/" []) (stored "x") "XYZ")).
Proof.
  split; [reflexivity|].
  assert (Haccepted :
            accepted (status [("error", JBool true)])
              (JObject [("error", JBool true)]))
    by (repeat split).
  exact (proj1 (handleMessageEvent_error_not_text
                  (status [("error", JBool true)])
                  (attached default_props (page "/" []) (stored "x") "XYZ")
                  (JObject [("error", JBool true)])
                  JUndefined (JBool true)
                  Haccepted eq_refl ltac:(discriminate) eq_refl eq_refl
                  eq_refl)).
Defined.

Lemma handleMessageEvent_invalidation_once_witness :
  localStorage (attached default_props (page "/" [])
                  (stored (Json.stringify "XYZ")) "XYZ")
    !! GISCUS_SESSION_KEY <> None /\
  exists second,
    console (final (handleMessageEvent
                      (status [("error", JString "Bad credentials")])
                      (final (handleMessageEvent
                                (status [("error", JString "Bad credentials")])
                                (attached default_props (page "/" [])
                                   (stored (Json.stringify "XYZ")) "XYZ")))))
    = [cleared_warning "Bad credentials";
       no_session_error "Bad credentials"; second].
Proof.
  assert (Hstored :
            localStorage (attached default_props (page "/" [])
                            (stored (Json.stringify "XYZ")) "XYZ")
              !! GISCUS_SESSION_KEY <> None)
    by (vm_compute; discriminate).
  split; [exact Hstored|].
  assert (Haccepted : accepted (status [("error", JString "Bad credentials")])
                        (JObject [("error", JString "Bad credentials")]))
    by (repeat split).
  pose proof (handleMessageEvent_invalidation_once
                (status [("error", JString "Bad credentials")])
                (attached default_props (page "/" [])
                   (stored (Json.stringify "XYZ")) "XYZ")
                (JObject [("error", JString "Bad credentials")])
                JUndefined "Bad credentials"
                Haccepted eq_refl ltac:(discriminate) eq_refl eq_refl Hstored)
    as (_ & _ & _ & Hconsole).
  exact Hconsole.
Defined.

Lemma setupSession_nothing_to_read_witness :
  or_empty (Url.get "giscus"
              (Url.searchParams
                 (location (fresh default_props
                              (page "/" [("giscus", "")]) (stored "")))))
  = EmptyString /\
  setupSession JSON_parse
    (fresh default_props (page "/" [("giscus", "")]) (stored "")) =
  Normal tt (fresh default_props (page "/" [("giscus", "")]) (stored "")).
Proof.
  split; [reflexivity|].
  apply (setupSession_nothing_to_read JSON_parse
           (fresh default_props (page "/" [("giscus", "")]) (stored "")));
    reflexivity.
Defined.

Lemma setupSession_restores_witness :
  JSON_parse (Json.stringify "XYZ") = inl (JString "XYZ") /\
  __session (final (setupSession JSON_parse
                      (fresh default_props (page "/" [])
                         (stored (Json.stringify "XYZ"))))) =
  JString "XYZ".
Proof.
  split; [reflexivity|].
  apply (setupSession_restores JSON_parse
           (fresh default_props (page "/" [("giscus", "XYZ")]) ∅)
           (fresh default_props (page "/" [])
              (stored (Json.stringify "XYZ")))
           "XYZ");
    [reflexivity | discriminate | reflexivity | reflexivity | reflexivity].
Defined.

Lemma setupSession_falsy_value_witness :
  JSON_parse "null" = inl JNull /\
  __session (final (setupSession JSON_parse
                      (fresh default_props (page "/" []) (stored "null")))) =
  JString "" /\
  localStorage (final (setupSession JSON_parse
                         (fresh default_props (page "/" []) (stored "null"))))
    !! GISCUS_SESSION_KEY = Some "null".
Proof.
  split; [reflexivity|].
  pose proof (setupSession_falsy_value JSON_parse
                (fresh default_props (page "/" []) (stored "null"))
                "null" JNull
                eq_refl eq_refl ltac:(discriminate) eq_refl eq_refl)
    as (Hsession & Hstorage & _).
  split; [exact Hsession|]. rewrite Hstorage. reflexivity.
Defined.

Lemma getIframeSrc_after_seed_witness :
  Url.get "session"
    (query (final (setupSession JSON_parse
                     (fresh default_props
                        (page "/a" [("giscus", "XYZ"); ("p", "1")]) ∅)))
       "XYZ") = Some "XYZ" /\
  Url.get "origin"
    (query (final (setupSession JSON_parse
                     (fresh default_props
                        (page "/a" [("giscus", "XYZ"); ("p", "1")]) ∅)))
       "XYZ") = Some "https://example.com/a?p=1".
Proof.
  pose proof (getIframeSrc_after_seed JSON_parse
                (fresh default_props
                   (page "/a" [("giscus", "XYZ"); ("p", "1")]) ∅)
                "XYZ" eq_refl ltac:(discriminate))
    as (_ & Hsession & Horigin & _).
  split; [exact Hsession|exact Horigin].
Defined.

Lemma getTerm_ignores_query_witness :
  getTerm (fresh default_props (page "/posts/a.html" [("giscus", "XYZ")]) ∅)
  = getTerm (attached default_props (page "/posts/a.html" [])
               (stored "x") "XYZ").
Proof.
  apply (getTerm_ignores_query
           (fresh default_props (page "/posts/a.html" [("giscus", "XYZ")]) ∅)
           (attached default_props (page "/posts/a.html" [])
              (stored "x") "XYZ"));
    reflexivity.
Defined.

Lemma getTerm_pathname_cut_witness :
  (2 <= String.length
          (Url.pathname
             (location (fresh default_props (page "/.well" []) ∅))))%nat /\
  getTerm (fresh default_props (page "/.well" []) ∅) = EmptyString.
Proof.
  split; [vm_compute; lia|].
  apply (proj2 (getTerm_pathname_cut
                  (fresh default_props (page "/.well" []) ∅)
                  eq_refl ltac:(vm_compute; lia))).
  reflexivity.
Defined.

Lemma getIframeSrc_query_shape_witness :
  JS.ToString (__session (attached dark_french
                            (page "/a b" [("x", "1&y=2")]) ∅ "a&b=c#d?e"))
  = Some "a&b=c#d?e" /\
  exists a q,
    getIframeSrc (attached dark_french
                    (page "/a b" [("x", "1&y=2")]) ∅ "a&b=c#d?e") =
    Some a /\
    a = "https://giscus.app/fr/widget?" +:+ q /\
    JSString.count "=" q = 13%nat /\
    JSString.count "&" q = 12%nat /\
    JSString.count "?" a = 1%nat /\
    JSString.count "#" a = 0%nat.
Proof.
  split; [reflexivity|].
  destruct (getIframeSrc_query_shape
              (attached dark_french
                 (page "/a b" [("x", "1&y=2")]) ∅ "a&b=c#d?e")
              "a&b=c#d?e" eq_refl)
    as (a & q & Hsrc & Ha & Hequals & Hands & _ & _ & _ & Hmarks & Hhashes).
  exists a, q. repeat apply conj; assumption.
Defined.

Lemma posted_to_remote_only_witness :
  Forall (fun m => targetOrigin m = GISCUS_ORIGIN)
    (posted_of (final (assign_props dark_french
                         (attached default_props (page "/" []) ∅ "")))).
Proof.
  apply (proj1 (posted_to_remote_only
                  (attached default_props (page "/" []) ∅ "")
                  (List.Forall_nil _))).
Defined.

Lemma assign_props_twice_witness :
  hasUpdated (attached default_props (page "/" []) ∅ "") = true /\
  length (posted_of (final (assign_props dark_french
                              (final (assign_props dark_french
                                        (attached default_props
                                           (page "/" []) ∅ "")))))) = 2%nat.
Proof.
  split; [reflexivity|].
  rewrite (assign_props_twice dark_french
             (attached default_props (page "/" []) ∅ "")
             {| src := address (fresh default_props (page "/" []) ∅) "";
                loading_attr := loading default_props;
                style_height := EmptyString;
                contentWindow := Some [] |}
             [] eq_refl eq_refl eq_refl).
  reflexivity.
Defined.

Lemma assign_props_loading_witness :
  hasUpdated (attached default_props (page "/" []) ∅ "") = true /\
  option_map loading_attr
    (iframeRef (final (assign_props (with_loading "lazy" default_props)
                         (attached default_props (page "/" []) ∅ "")))) =
  Some "eager".
Proof.
  split; [reflexivity|].
  exact (proj2 (proj2 (assign_props_loading default_props "lazy"
                         (attached default_props (page "/" []) ∅ "")
                         eq_refl))).
Defined.

End Concrete.
